(** * EIP-7702 delegation check: a shallow embedding of
      [scripts/check-delegation.ts] and the properties of its
      delegation-indicator decoding, batch check and command line. *)

From Stdlib Require Import String Ascii List ZArith Lia Bool.
From Stdlib Require Import DecimalString.
Import ListNotations.

Local Open Scope string_scope.

(** ** JavaScript string and array primitives

    A JavaScript string is modelled as a [string] whose characters are
    the code units U+0000..U+00FF.  Account code, addresses and network
    names are ASCII, so every string the script handles is in that range;
    on it [toLowerCase] maps code units one to one. *)
Module JS.

(** [String.prototype.toLowerCase] on one code unit below 256: the
    upper-case letters are A..Z, U+00C0..U+00D6 and U+00D8..U+00DE, each
    32 below its lower-case form. *)
Definition toLowerCaseChar (c : ascii) : ascii :=
  let n := nat_of_ascii c in
  if (((65 <=? n) && (n <=? 90)) || ((192 <=? n) && (n <=? 214))
      || ((216 <=? n) && (n <=? 222)))%nat
  then ascii_of_nat (n + 32) else c.

Fixpoint toLowerCase (s : string) : string :=
  match s with
  | EmptyString => EmptyString
  | String c s' => String (toLowerCaseChar c) (toLowerCase s')
  end.

(** [s.startsWith(p)] *)
Fixpoint startsWith (s p : string) {struct p} : bool :=
  match p, s with
  | EmptyString, _ => true
  | String _ _, EmptyString => false
  | String a p', String b s' => Ascii.eqb a b && startsWith s' p'
  end.

(** Relative index of [slice]: a negative index counts from the end,
    and the result is clamped to [0, len]. *)
Definition clampIndex (len i : Z) : Z :=
  if (i <? 0)%Z then Z.max (len + i) 0 else Z.min i len.

(** [s.slice(b, e)] on strings. *)
Definition slice (s : string) (b e : Z) : string :=
  let len := Z.of_nat (String.length s) in
  let from := clampIndex len b in
  let to := clampIndex len e in
  substring (Z.to_nat from) (Z.to_nat (Z.max (to - from) 0)) s.

(** [a.slice(b, e)] on arrays. *)
Definition sliceA {A : Type} (a : list A) (b e : Z) : list A :=
  let len := Z.of_nat (List.length a) in
  let from := clampIndex len b in
  let to := clampIndex len e in
  firstn (Z.to_nat (Z.max (to - from) 0)) (skipn (Z.to_nat from) a).

(** [a.slice(b)]: the end defaults to the length. *)
Definition sliceFrom {A : Type} (a : list A) (b : Z) : list A :=
  sliceA a b (Z.of_nat (List.length a)).

(** [a.includes(x)] on an array of strings. *)
Definition includes (a : list string) (x : string) : bool :=
  existsb (String.eqb x) a.

(** [a.join(sep)] *)
Definition join (sep : string) (a : list string) : string :=
  String.concat sep a.

(** [String(n)] for a non-negative integer. *)
Definition ofNat (n : nat) : string :=
  NilZero.string_of_uint (Nat.to_uint n).

(** Truthiness of a value that is a string or [undefined]. *)
Definition truthy (v : option string) : bool :=
  match v with
  | Some s => negb (String.eqb s "")
  | None => false
  end.

(** A value that is a string or [undefined] inside a template literal. *)
Definition interp (v : option string) : string :=
  match v with
  | Some s => s
  | None => "undefined"
  end.

(** [a || b] where [a] is a string or [undefined]. *)
Definition orElse (a : option string) (b : string) : string :=
  if truthy a then interp a else b.

(** The character class [[a-fA-F0-9]]. *)
Definition isHexDigit (c : ascii) : bool :=
  let n := nat_of_ascii c in
  (((97 <=? n) && (n <=? 102)) || ((65 <=? n) && (n <=? 70))
   || ((48 <=? n) && (n <=? 57)))%nat.

Fixpoint allHex (s : string) : bool :=
  match s with
  | EmptyString => true
  | String c s' => isHexDigit c && allHex s'
  end.

(** [/^0x[a-fA-F0-9]{40}$/.test(s)]: without the [m] flag [^] and [$]
    match only at the two ends of the input. *)
Definition testAddress (s : string) : bool :=
  match s with
  | String "0" (String "x" h) => (String.length h =? 40)%nat && allHex h
  | _ => false
  end.

Definition newline : string := String (ascii_of_nat 10) EmptyString.

End JS.

(** ** The delegation record *)

(** The object literal returned by [checkDelegation], and the one pushed
    by the [catch] of [checkMultipleDelegations]; a field the literal
    does not have is [None]. *)
Record DelegationResult : Type := mkResult {
  isDelegated : bool;
  address : string;
  network : string;
  delegatedTo : option string;
  code : option string;
  message : option string;
  error : option string
}.

(** [const DELEGATION_INDICATOR = '0xef0100'] *)
Definition DELEGATION_INDICATOR : string := "0xef0100".

(** The body of the [try] in [checkDelegation] after the account code
    has been read (lines 57 to 90): [codeRead] is the value of
    [client.getCode], a string or [undefined]. *)
Definition inspectCode (addr networkName : string)
    (codeRead : option string) : DelegationResult :=
  match codeRead with
  | None =>
      mkResult false addr networkName None None
        (Some "No code at address (EOA or no delegation)") None
  | Some c =>
      if String.eqb c "" || String.eqb c "0x" then
        mkResult false addr networkName None None
          (Some "No code at address (EOA or no delegation)") None
      else
        let delegated :=
          JS.startsWith (JS.toLowerCase c) DELEGATION_INDICATOR in
        if delegated then
          let delegatedAddress := "0x" ++ JS.slice c 8 48 in
          mkResult true addr networkName (Some delegatedAddress) (Some c)
            (Some ("Address is delegated to " ++ delegatedAddress)) None
        else
          mkResult false addr networkName None (Some c)
            (Some "Address has code but no EIP-7702 delegation") None
  end.

(** ** What the specification calls things *)

(** [c] is [lower] or [upper]: one letter in either case. *)
Definition sameLetter (lower upper c : ascii) : Prop :=
  c = lower \/ c = upper.

(** The two characters [0x], the [x] in either case. *)
Inductive Spells_0x : string -> Prop :=
| spells_0x x :
    sameLetter "x" "X" x -> Spells_0x (String "0" (String x "")).

(** The six characters [ef0100], the letters in either case. *)
Inductive Spells_ef0100 : string -> Prop :=
| spells_ef0100 e f :
    sameLetter "e" "E" e -> sameLetter "f" "F" f ->
    Spells_ef0100 (String e (String f "0100")).

(** [body] starts, case-insensitively, with [ef0100]. *)
Definition StartsWith_ef0100 (body : string) : Prop :=
  exists q rest, Spells_ef0100 q /\ body = q ++ rest.

(** [c] starts, case-insensitively, with the indicator [0xef0100]. *)
Definition StartsWithIndicator (c : string) : Prop :=
  exists p body, Spells_0x p /\ StartsWith_ef0100 body /\ c = p ++ body.

(** The empty-code marker: an absent code, the empty string or ["0x"]. *)
Definition EmptyCode (codeRead : option string) : Prop :=
  codeRead = None \/ codeRead = Some "" \/ codeRead = Some "0x".

(** A hexadecimal character. *)
Definition HexChar (c : ascii) : Prop :=
  In c (list_ascii_of_string "0123456789abcdefABCDEF").

Definition HexString (h : string) : Prop :=
  Forall HexChar (list_ascii_of_string h).

(** Valid hex: [0x] followed by an even number of hex digits. *)
Definition validHex (c : string) : bool :=
  match c with
  | String "0" (String "x" h) => JS.allHex h && Nat.even (String.length h)
  | _ => false
  end.

(** [0x] followed by exactly 40 hexadecimal characters. *)
Definition AddressPattern (a : string) : Prop :=
  exists h, a = "0x" ++ h /\ String.length h = 40 /\ HexString h.

(** ** The collaborators *)

(** The chain objects imported from [viem/chains]. *)
Inductive Chain : Type := mainnet | sepolia | base | baseSepolia.

(** What the script takes from its environment and from viem.  A thrown
    value is modelled by its message, the only part of it the script
    reads ([error instanceof Error ? error.message : String(error)]).
    - [World] is the state of the nodes and of the transport, which a
      read may change;
    - [env] is [process.env];
    - [createPublicClient chain url] is
      [createPublicClient({ chain, transport: http(url) })], which may
      throw; both arguments may be [undefined];
    - [getCode client address] is [client.getCode({ address })]: it
      throws or yields a string or [undefined]. *)
Class Host : Type := {
  World : Type;
  Client : Type;
  env : string -> option string;
  createPublicClient : option Chain -> option string -> string + Client;
  getCode : Client -> string -> World -> (string + option string) * World
}.

(** ** Effects: console, exceptions and [process.exit] *)

(** A line written to the console; its text is kept in UTF-8. *)
Inductive Line : Type :=
| Log (text : string)     (* console.log *)
| Error (text : string).  (* console.error *)

Inductive Outcome (A : Type) : Type :=
| Ok (a : A)            (* normal completion *)
| Throw (msg : string)  (* an exception with this message *)
| Exit (status : Z).    (* process.exit(status) *)

Arguments Ok {A} a.
Arguments Throw {A} msg.
Arguments Exit {A} status.

Record Sys `{Host} : Type := mkSys {
  world : World;
  console : list Line
}.

Definition M `{Host} (A : Type) : Type := Sys -> Outcome A * Sys.

Definition ret `{Host} {A : Type} (a : A) : M A := fun st => (Ok a, st).

Definition bind `{Host} {A B : Type} (c : M A) (k : A -> M B) : M B :=
  fun st =>
    match c st with
    | (Ok a, st') => k a st'
    | (Throw msg, st') => (Throw msg, st')
    | (Exit n, st') => (Exit n, st')
    end.

Declare Scope js_scope.
Delimit Scope js_scope with js.
Notation "x <- c1 ;; c2" := (bind c1 (fun x => c2))
  (at level 61, c1 at next level, right associativity) : js_scope.
Notation "c1 ;; c2" := (bind c1 (fun _ => c2))
  (at level 61, right associativity) : js_scope.
Local Open Scope js_scope.

Definition throw `{Host} {A : Type} (msg : string) : M A :=
  fun st => (Throw msg, st).

(** [process.exit(n)]: no [catch] sees it. *)
Definition exit `{Host} {A : Type} (n : Z) : M A :=
  fun st => (Exit n, st).

(** [try { c } catch (error) { h error }] *)
Definition tryCatch `{Host} {A : Type} (c : M A) (h : string -> M A) : M A :=
  fun st =>
    match c st with
    | (Throw msg, st') => h msg st'
    | r => r
    end.

Definition emit `{Host} (l : Line) : M unit :=
  fun st => (Ok tt, mkSys _ (world st) (console st ++ [l])%list).

Definition consoleLog `{Host} (text : string) : M unit := emit (Log text).
Definition consoleError `{Host} (text : string) : M unit := emit (Error text).

(** A call into viem that throws or returns, without touching the chain. *)
Definition call `{Host} {A : Type} (r : string + A) : M A :=
  match r with
  | inl msg => throw msg
  | inr a => ret a
  end.

(** [await client.getCode({ address })] *)
Definition readCode `{Host} (client : Client) (addr : string)
    : M (option string) :=
  fun st =>
    match getCode client addr (world st) with
    | (inl msg, w) => (Throw msg, mkSys _ w (console st))
    | (inr c, w) => (Ok c, mkSys _ w (console st))
    end.

(** ** The network table *)

(** The own properties of [networks], in the order of the literal. *)
Definition networks `{Host} : list (string * (Chain * string)) :=
  [ ("mainnet",
     (mainnet, JS.orElse (env "MAINNET_RPC_URL") "https://eth.llamarpc.com"));
    ("sepolia",
     (sepolia, JS.orElse (env "SEPOLIA_RPC_URL") "https://rpc.sepolia.org"));
    ("base",
     (base, JS.orElse (env "BASE_RPC_URL") "https://mainnet.base.org"));
    ("baseSepolia",
     (baseSepolia,
      JS.orElse (env "BASE_SEPOLIA_RPC_URL") "https://sepolia.base.org")) ].

(** [Object.keys(networks)] *)
Definition networkKeys `{Host} : list string := map fst networks.

(** The properties every object literal inherits from
    [Object.prototype]; each is a function, or for [__proto__] the
    prototype object itself. *)
Definition Object_prototype_keys : list string :=
  [ "constructor"; "__defineGetter__"; "__defineSetter__";
    "hasOwnProperty"; "__lookupGetter__"; "__lookupSetter__";
    "isPrototypeOf"; "propertyIsEnumerable"; "toString"; "valueOf";
    "__proto__"; "toLocaleString" ].

(** The value of the property access [networks[networkName]]. *)
Inductive NetworkValue : Type :=
| OwnEntry (chain : Chain) (rpcUrl : string)
| Inherited      (* a member of [Object.prototype] *)
| Undefined.

Fixpoint ownProperty {A : Type} (o : list (string * A)) (k : string)
    : option A :=
  match o with
  | [] => None
  | (k', v) :: o' => if String.eqb k k' then Some v else ownProperty o' k
  end.

(** [networks[networkName]]: an own property, else one found on the
    prototype, else [undefined]. *)
Definition networkValue `{Host} (networkName : string) : NetworkValue :=
  match ownProperty networks networkName with
  | Some (c, url) => OwnEntry c url
  | None =>
      if JS.includes Object_prototype_keys networkName then Inherited
      else Undefined
  end.

(** [!network] *)
Definition falsy (v : NetworkValue) : bool :=
  match v with
  | Undefined => true
  | _ => false
  end.

(** [network.chain] and [network.rpcUrl]; the members of
    [Object.prototype] have neither property. *)
Definition chainOf (v : NetworkValue) : option Chain :=
  match v with
  | OwnEntry c _ => Some c
  | _ => None
  end.

Definition rpcUrlOf (v : NetworkValue) : option string :=
  match v with
  | OwnEntry _ url => Some url
  | _ => None
  end.

Definition unknownNetwork `{Host} (networkName : string) : string :=
  "Unknown network: " ++ networkName ++ ". Available networks: "
  ++ JS.join ", " networkKeys.

(** ** [checkDelegation] *)

(** Lines 48 to 95: the client is created, then the [try] reads the code
    and inspects it; whatever the [try] throws is thrown again with a
    prefixed message. *)
Definition connectAndRead `{Host} (addr networkName : string)
    (network : NetworkValue) : M DelegationResult :=
  client <- call (createPublicClient (chainOf network) (rpcUrlOf network)) ;;
  tryCatch
    (codeRead <- readCode client addr ;;
     ret (inspectCode addr networkName codeRead))
    (fun msg => throw ("Failed to check delegation: " ++ msg)).

(** [checkDelegation(address, networkName)]; a caller that omits
    [networkName] passes ["mainnet"]. *)
Definition checkDelegation `{Host} (addr networkName : string)
    : M DelegationResult :=
  let network := networkValue networkName in
  if falsy network then throw (unknownNetwork networkName)
  else connectAndRead addr networkName network.

(** ** [displayDelegationInfo] *)

Definition displayDelegationInfo `{Host} (addr networkName : string)
    : M DelegationResult :=
  consoleLog (JS.newline ++ "=== EIP-7702 Delegation Check ===") ;;
  consoleLog ("Address: " ++ addr) ;;
  consoleLog ("Network: " ++ networkName) ;;
  consoleLog ("================================" ++ JS.newline) ;;
  tryCatch
    (result <- checkDelegation addr networkName ;;
     consoleLog ("Status: " ++
       (if isDelegated result then "✓ DELEGATED" else "✗ NOT DELEGATED")) ;;
     consoleLog ("Message: " ++ JS.interp (message result)) ;;
     (if isDelegated result && JS.truthy (delegatedTo result) then
        consoleLog (JS.newline ++ "Delegation Details:") ;;
        consoleLog ("  Delegated To: " ++ JS.interp (delegatedTo result)) ;;
        consoleLog ("  Code: " ++ JS.interp (code result))
      else if JS.truthy (code result) then
        let c := JS.interp (code result) in
        consoleLog (JS.newline ++ "Code found: " ++ JS.slice c 0 66 ++
          (if (66 <? String.length c)%nat then "..." else ""))
      else ret tt) ;;
     consoleLog (JS.newline ++ "================================" ++ JS.newline) ;;
     ret result)
    (fun msg =>
       consoleError (JS.newline ++ "Error: " ++ msg) ;;
       throw msg).

(** ** [checkMultipleDelegations] *)

(** The entry the [catch] of the loop pushes for an address whose check
    threw [msg]. *)
Definition failedEntry (addr networkName msg : string) : DelegationResult :=
  mkResult false addr networkName None None None (Some msg).

(** One turn of the [for] loop: [results] is the array so far, and the
    value is the array after the [push] of this turn.  Only
    [checkDelegation] can throw inside the [try], and it is called
    before the [push]. *)
Definition checkOne `{Host} (networkName : string)
    (results : list DelegationResult) (addr : string)
    : M (list DelegationResult) :=
  tryCatch
    (result <- checkDelegation addr networkName ;;
     let results' := (results ++ [result])%list in
     consoleLog (addr ++ ": " ++
       (if isDelegated result then "✓ Delegated" else "✗ Not delegated")) ;;
     (if isDelegated result && JS.truthy (delegatedTo result) then
        consoleLog ("  → " ++ JS.interp (delegatedTo result))
      else ret tt) ;;
     ret results')
    (fun msg =>
       consoleError (addr ++ ": Error - " ++ msg) ;;
       ret (results ++ [failedEntry addr networkName msg])%list).

(** [for (const address of addresses) { ... }] *)
Fixpoint checkEach `{Host} (networkName : string)
    (results : list DelegationResult) (addresses : list string)
    : M (list DelegationResult) :=
  match addresses with
  | [] => ret results
  | addr :: rest =>
      results' <- checkOne networkName results addr ;;
      checkEach networkName results' rest
  end.

Definition checkMultipleDelegations `{Host} (addresses : list string)
    (networkName : string) : M (list DelegationResult) :=
  consoleLog (JS.newline ++ "=== Checking Multiple Addresses ===") ;;
  consoleLog ("Network: " ++ networkName) ;;
  consoleLog ("Total addresses: " ++ JS.ofNat (List.length addresses)) ;;
  consoleLog ("===================================" ++ JS.newline) ;;
  results <- checkEach networkName [] addresses ;;
  consoleLog (JS.newline ++ "===================================" ++ JS.newline) ;;
  ret results.

(** ** The command line *)

Definition usage `{Host} : M unit :=
  consoleLog (JS.newline ++ "Usage:") ;;
  consoleLog "  Single address: ts-node scripts/check-delegation.ts <address> [network]" ;;
  consoleLog "  Multiple addresses: ts-node scripts/check-delegation.ts <address1> <address2> ... [network]" ;;
  consoleLog (JS.newline ++ "Supported networks: mainnet, sepolia, base, baseSepolia") ;;
  consoleLog (JS.newline ++ "Examples:") ;;
  consoleLog "  ts-node scripts/check-delegation.ts 0x742d35Cc6634C0532925a3b844Bc9e7595f0bEb" ;;
  consoleLog "  ts-node scripts/check-delegation.ts 0x742d35Cc6634C0532925a3b844Bc9e7595f0bEb base" ;;
  consoleLog ("  ts-node scripts/check-delegation.ts 0xAddr1 0xAddr2 0xAddr3 sepolia" ++ JS.newline).

(** [addresses.filter((addr) => { ... })]: an address that fails the
    pattern is reported on [console.error] and dropped. *)
Fixpoint validate `{Host} (addresses : list string) : M (list string) :=
  match addresses with
  | [] => ret []
  | addr :: rest =>
      keep <- (if negb (JS.testAddress addr) then
                 consoleError ("Invalid address format: " ++ addr) ;;
                 ret false
               else ret true) ;;
      kept <- validate rest ;;
      ret (if keep : bool then addr :: kept else kept)
  end.

(** The body of the [try] in the [async] function at the end: one valid
    address is displayed, several are checked as a batch. *)
Definition dispatch `{Host} (validAddresses : list string)
    (networkName : string) : M unit :=
  if (List.length validAddresses =? 1)%nat then
    displayDelegationInfo (nth 0 validAddresses "") networkName ;; ret tt
  else
    checkMultipleDelegations validAddresses networkName ;; ret tt.

(** The last argument is the network when it is a key of [networks]. *)
Definition cliNetwork `{Host} (args : list string) : string :=
  let lastArg := nth (List.length args - 1) args "" in
  if JS.includes networkKeys lastArg then lastArg else "mainnet".

Definition cliAddresses `{Host} (args : list string) : list string :=
  let lastArg := nth (List.length args - 1) args "" in
  if JS.includes networkKeys lastArg then JS.sliceA args 0 (-1) else args.

(** The part of the script under [require.main === module], run on
    [args = process.argv.slice(2)]. *)
Definition cli `{Host} (args : list string) : M unit :=
  (if (List.length args =? 0)%nat then usage ;; exit 1 else ret tt) ;;
  let networkName := cliNetwork args in
  let addresses := cliAddresses args in
  validAddresses <- validate addresses ;;
  (if (List.length validAddresses =? 0)%nat then
     consoleError "No valid addresses provided" ;; exit 1
   else ret tt) ;;
  tryCatch
    (dispatch validAddresses networkName)
    (fun msg =>
       consoleError (JS.newline ++ "Fatal error: " ++ msg) ;;
       exit 1).

Definition main `{Host} (argv : list string) : M unit :=
  cli (JS.sliceFrom argv 2).

(** The status the process ends with: the argument of [process.exit],
    0 when the script runs to its end, 1 for an uncaught exception. *)
Definition exitStatus {A : Type} (o : Outcome A) : Z :=
  match o with
  | Ok _ => 0
  | Throw _ => 1
  | Exit n => n
  end.

(** ** A host to run the script on

    The chain is a table from address to what reading its code gives;
    the world counts the reads made so far. *)
Definition tableHost (table : string -> string + option string) : Host :=
  {| World := nat;
     Client := option Chain * option string;
     env := fun _ => None;
     createPublicClient := fun c url => inr (c, url);
     getCode := fun _ addr w => (table addr, S w) |}.

Definition addr1 : string := "0x1111111111111111111111111111111111111111".
Definition addr2 : string := "0x2222222222222222222222222222222222222222".
Definition addr3 : string := "0x3333333333333333333333333333333333333333".
Definition addr4 : string := "0x4444444444444444444444444444444444444444".

(** [addr1] is delegated, reading [addr2] fails in the transport,
    [addr3] holds contract code and the node answers ["0xzz"] for
    [addr4]; every other address holds nothing. *)
Definition sampleTable (a : string) : string + option string :=
  if String.eqb a addr1 then
    inr (Some "0xef0100d8da6bf26964af9d7eed9e03e53415d37aa96045")
  else if String.eqb a addr2 then inl "HTTP request failed."
  else if String.eqb a addr3 then inr (Some "0x6080604052")
  else if String.eqb a addr4 then inr (Some "0xzz")
  else inr (Some "0x").

Definition sampleHost : Host := tableHost sampleTable.

Definition start `{Host} (w : World) : Sys := mkSys _ w [].

(** A host on which every address holds the same seventy characters of
    contract code. *)
Definition longCode : string :=
  "0x60806040523480156100105760006000fd5b50600436106100365760003560e01c80".

Definition longCodeHost : Host := tableHost (fun _ => inr (Some longCode)).

(** ** The signing scripts, [scripts/revoke.ts] and [scripts/delegate.ts] *)

Module Wallet.

(** [const ZERO_ADDRESS] of [revoke.ts]. *)
Definition ZERO_ADDRESS : string :=
  "0x0000000000000000000000000000000000000000".

(** What the two scripts take from their environment and from viem.
    - [WWorld] is the state of the chain and of the transport;
    - [Thrown] are the values that can be thrown; [newError m] is
      [new Error(m)], [messageText e] is what the console writes for
      [error.message] and [thrownText e] what it writes for [error];
    - [walletEnv] is [process.env];
    - [privateKeyToAccount] and [createWalletClient] (given the
      account, the chain and the URL of its [http] transport) throw or
      return;
    - [chainIdText], [addressText] and [nonceText] are what the console
      writes for the three fields of an authorization;
    - [signAuthorization client contractAddress] and
      [sendTransaction client authorizationList to value data] are the
      two requests, which throw or answer and may change the world. *)
Class WalletHost : Type := {
  WWorld : Type;
  Thrown : Type;
  newError : string -> Thrown;
  messageText : Thrown -> string;
  thrownText : Thrown -> string;
  walletEnv : string -> option string;
  Account : Type;
  accountAddress : Account -> string;
  privateKeyToAccount : string -> Thrown + Account;
  WalletClient : Type;
  createWalletClient : Account -> Chain -> string -> Thrown + WalletClient;
  Authorization : Type;
  chainIdText : Authorization -> string;
  addressText : Authorization -> string;
  nonceText : Authorization -> string;
  signAuthorization :
    WalletClient -> string -> WWorld -> (Thrown + Authorization) * WWorld;
  sendTransaction :
    WalletClient -> list Authorization -> string -> Z -> string ->
    WWorld -> (Thrown + string) * WWorld
}.

(** The requests made to the wallet client, kept in the order made. *)
Inductive Request `{WalletHost} : Type :=
| SignAuthorization (contractAddress : string)
| SendTransaction (authorizationList : list Authorization) (to : string)
    (value : Z) (data : string).

Inductive Completion `{WalletHost} (A : Type) : Type :=
| Returned (a : A)     (* normal completion *)
| Threw (e : Thrown)   (* an exception *)
| Exited (status : Z). (* process.exit(status) *)

Arguments Returned {_ A} a.
Arguments Threw {_ A} e.
Arguments Exited {_ A} status.

Record WSys `{WalletHost} : Type := mkWSys {
  wworld : WWorld;
  wconsole : list Line;
  requests : list Request
}.

Definition W `{WalletHost} (A : Type) : Type := WSys -> Completion A * WSys.

Definition wret `{WalletHost} {A : Type} (a : A) : W A :=
  fun st => (Returned a, st).

Definition wbind `{WalletHost} {A B : Type} (c : W A) (k : A -> W B) : W B :=
  fun st =>
    match c st with
    | (Returned a, st') => k a st'
    | (Threw e, st') => (Threw e, st')
    | (Exited n, st') => (Exited n, st')
    end.

Declare Scope wallet_scope.
Delimit Scope wallet_scope with wallet.
Notation "x <- c1 ;; c2" := (wbind c1 (fun x => c2))
  (at level 61, c1 at next level, right associativity) : wallet_scope.
Notation "c1 ;; c2" := (wbind c1 (fun _ => c2))
  (at level 61, right associativity) : wallet_scope.
Local Open Scope wallet_scope.

Definition wthrow `{WalletHost} {A : Type} (e : Thrown) : W A :=
  fun st => (Threw e, st).

Definition wexit `{WalletHost} {A : Type} (n : Z) : W A :=
  fun st => (Exited n, st).

(** [try { c } catch (error) { h error }], and [p.catch(h)] on a
    promise. *)
Definition wtryCatch `{WalletHost} {A : Type} (c : W A) (h : Thrown -> W A)
    : W A :=
  fun st =>
    match c st with
    | (Threw e, st') => h e st'
    | r => r
    end.

Definition wemit `{WalletHost} (l : Line) : W unit :=
  fun st =>
    (Returned tt, mkWSys _ (wworld st) (wconsole st ++ [l])%list (requests st)).

Definition wlog `{WalletHost} (text : string) : W unit := wemit (Log text).
Definition werror `{WalletHost} (text : string) : W unit := wemit (Error text).

(** A call into viem that throws or returns, without a request. *)
Definition wcall `{WalletHost} {A : Type} (r : Thrown + A) : W A :=
  match r with
  | inl e => wthrow e
  | inr a => wret a
  end.

(** [await client.signAuthorization({ contractAddress })] *)
Definition sign `{WalletHost} (client : WalletClient)
    (contractAddress : string) : W Authorization :=
  fun st =>
    let rs := (requests st ++ [SignAuthorization contractAddress])%list in
    match signAuthorization client contractAddress (wworld st) with
    | (inl e, w) => (Threw e, mkWSys _ w (wconsole st) rs)
    | (inr a, w) => (Returned a, mkWSys _ w (wconsole st) rs)
    end.

(** [await client.sendTransaction({ authorizationList, to, value, data })] *)
Definition send `{WalletHost} (client : WalletClient)
    (authorizationList : list Authorization) (to : string) (value : Z)
    (data : string) : W string :=
  fun st =>
    let rs :=
      (requests st ++ [SendTransaction authorizationList to value data])%list in
    match sendTransaction client authorizationList to value data (wworld st)
    with
    | (inl e, w) => (Threw e, mkWSys _ w (wconsole st) rs)
    | (inr hash, w) => (Returned hash, mkWSys _ w (wconsole st) rs)
    end.

(** [revokeDelegation()] of [revoke.ts]. *)
Definition revokeDelegation `{WalletHost} : W unit :=
  (if negb (JS.truthy (walletEnv "PRIVATE_KEY")) then
     wthrow (newError "Please provide PRIVATE_KEY in .env file")
   else wret tt) ;;
  account <- wcall (privateKeyToAccount
                      ("0x" ++ JS.interp (walletEnv "PRIVATE_KEY"))) ;;
  client <- wcall (createWalletClient account mainnet
                     (JS.orElse (walletEnv "RPC_URL")
                        "https://eth.llamarpc.com")) ;;
  wlog (JS.newline ++ "🔄 Revoking EIP-7702 Delegation...") ;;
  wlog ("Account: " ++ accountAddress account) ;;
  wlog ("Setting delegation to: " ++ ZERO_ADDRESS) ;;
  wtryCatch
    (authorization <- sign client ZERO_ADDRESS ;;
     wlog (JS.newline ++ "✅ Authorization signed:") ;;
     wlog ("Chain ID: " ++ chainIdText authorization) ;;
     wlog ("Address: " ++ addressText authorization) ;;
     wlog ("Nonce: " ++ nonceText authorization) ;;
     hash <- send client [authorization] (accountAddress account) 0 "0x" ;;
     wlog (JS.newline ++ "✅ Revocation transaction sent!") ;;
     wlog ("Transaction hash: " ++ hash) ;;
     wlog ("View on Etherscan: https://etherscan.io/tx/" ++ hash) ;;
     wlog (JS.newline ++ "✅ Delegation successfully revoked!") ;;
     wlog "Your account has been returned to normal EOA state.")
    (fun error =>
       werror (JS.newline ++ "❌ Error revoking delegation: "
               ++ messageText error) ;;
       wthrow error).

(** The end of a script: [run().then(() => { ... }).catch((error) => { ... })]. *)
Definition runScript `{WalletHost} (run : W unit) : W unit :=
  wtryCatch
    (run ;;
     wlog (JS.newline ++ "✅ Script completed successfully") ;;
     wexit 0)
    (fun error =>
       werror (JS.newline ++ "❌ Script failed: " ++ thrownText error) ;;
       wexit 1).

(** The script [revoke.ts]. *)
Definition revokeScript `{WalletHost} : W unit := runScript revokeDelegation.

(** [delegateToContract()] of [delegate.ts]. *)
Definition delegateToContract `{WalletHost} : W unit :=
  (if negb (JS.truthy (walletEnv "PRIVATE_KEY")) then
     wthrow (newError "Please provide PRIVATE_KEY in .env file")
   else wret tt) ;;
  (if negb (JS.truthy (walletEnv "DELEGATION_CONTRACT")) then
     wthrow (newError "Please provide DELEGATION_CONTRACT address in .env file")
   else wret tt) ;;
  account <- wcall (privateKeyToAccount
                      ("0x" ++ JS.interp (walletEnv "PRIVATE_KEY"))) ;;
  let delegationContract := JS.interp (walletEnv "DELEGATION_CONTRACT") in
  client <- wcall (createWalletClient account mainnet
                     (JS.orElse (walletEnv "RPC_URL")
                        "https://eth.llamarpc.com")) ;;
  wlog (JS.newline ++ "🔗 Setting up EIP-7702 Delegation...") ;;
  wlog ("Account: " ++ accountAddress account) ;;
  wlog ("Delegating to: " ++ delegationContract) ;;
  wtryCatch
    (authorization <- sign client delegationContract ;;
     wlog (JS.newline ++ "✅ Authorization signed:") ;;
     wlog ("Chain ID: " ++ chainIdText authorization) ;;
     wlog ("Address: " ++ addressText authorization) ;;
     wlog ("Nonce: " ++ nonceText authorization) ;;
     hash <- send client [authorization] (accountAddress account) 0 "0x" ;;
     wlog (JS.newline ++ "✅ Delegation transaction sent!") ;;
     wlog ("Transaction hash: " ++ hash) ;;
     wlog ("View on Etherscan: https://etherscan.io/tx/" ++ hash) ;;
     wlog (JS.newline ++ "✅ Delegation successfully established!") ;;
     wlog "Your EOA now acts as the delegated contract." ;;
     wlog (JS.newline ++ "⚠️  Remember: You can revoke this delegation at any time using the revoke script."))
    (fun error =>
       werror (JS.newline ++ "❌ Error establishing delegation: "
               ++ messageText error) ;;
       wthrow error).

(** The script [delegate.ts]. *)
Definition delegateScript `{WalletHost} : W unit :=
  runScript delegateToContract.

(** A wallet host to run the scripts on: the environment holds [key]
    and [contract], an authorization is the address it is for, and
    signing for [refused] fails. *)
Definition sampleWallet (key contract : option string) (refused : string)
    : WalletHost :=
  {| WWorld := nat;
     Thrown := string;
     newError := fun m => m;
     messageText := fun e => e;
     thrownText := fun e => ("Error: " ++ e)%string;
     walletEnv := fun k =>
       if String.eqb k "PRIVATE_KEY" then key
       else if String.eqb k "DELEGATION_CONTRACT" then contract
       else None;
     Account := string;
     accountAddress := fun a => a;
     privateKeyToAccount := fun k => inr ("account of " ++ k)%string;
     WalletClient := string;
     createWalletClient := fun a _ _ => inr a;
     Authorization := string;
     chainIdText := fun _ => "1";
     addressText := fun a => a;
     nonceText := fun _ => "0";
     signAuthorization := fun _ target w =>
       if String.eqb target refused then (inl "User rejected the request.", S w)
       else (inr target, S w);
     sendTransaction := fun _ _ _ _ _ w => (inr "0xhash", S w) |}.

Definition wstart `{WalletHost} (w : WWorld) : WSys := mkWSys _ w [] [].

(** Four wallets: one without key, one that signs and sends, one that
    refuses to sign for the zero address, and one whose
    [DELEGATION_CONTRACT] is the zero address. *)
Definition noKeyWallet : WalletHost := sampleWallet None None "".
Definition signingWallet : WalletHost := sampleWallet (Some "ab") None "".
Definition refusingWallet : WalletHost :=
  sampleWallet (Some "ab") None ZERO_ADDRESS.
Definition zeroWallet : WalletHost :=
  sampleWallet (Some "ab") (Some ZERO_ADDRESS) "".

Close Scope wallet_scope.

End Wallet.

(** ** How the claims read on the model *)

(** The invariant of the delegation record as the specification words
    it, for the record [r] returned on the code [c]. *)
Definition StatedInvariant (c : string) (r : DelegationResult) : Prop :=
  (isDelegated r = true ->
   exists p q a rest,
     Spells_0x p /\ Spells_ef0100 q /\ c = p ++ q ++ a ++ rest /\
     String.length a = 40 /\ delegatedTo r = Some ("0x" ++ a)) /\
  ((c = "" \/ ~ StartsWithIndicator c) ->
   isDelegated r = false /\ delegatedTo r = None).

(** The entry of the batch for an address whose check, made alone, has
    the outcome [o]; [checkDelegation] never ends the process. *)
Definition entryOf (addr networkName : string)
    (o : Outcome DelegationResult) : option DelegationResult :=
  match o with
  | Ok r => Some r
  | Throw msg => Some (failedEntry addr networkName msg)
  | Exit _ => None
  end.

(** The single-address check made alone in the world [w]. *)
Definition checkAlone `{Host} (addr networkName : string) (w : World)
    : Outcome DelegationResult * World :=
  let (o, st) := checkDelegation addr networkName (mkSys _ w []) in
  (o, world st).

(** The world after the addresses have been checked one after the other. *)
Fixpoint worldAfter `{Host} (networkName : string) (addresses : list string)
    (w : World) : World :=
  match addresses with
  | [] => w
  | a :: rest => worldAfter networkName rest (snd (checkAlone a networkName w))
  end.

(** What [validate] writes for the addresses it drops. *)
Definition reports (addresses : list string) : list Line :=
  map (fun a => Error ("Invalid address format: " ++ a))
      (filter (fun a => negb (JS.testAddress a)) addresses).

(** * Properties *)

(** ** Strings *)

Module StringFacts.

Lemma length_append (s t : string) :
  String.length (s ++ t) = String.length s + String.length t.
Proof. induction s as [|c s IH]; simpl; [reflexivity | now rewrite IH]. Qed.

Lemma append_nil_r (s : string) : s ++ "" = s.
Proof. induction s as [|c s IH]; simpl; [reflexivity | now rewrite IH]. Qed.

Lemma append_assoc (s t u : string) : (s ++ t) ++ u = s ++ t ++ u.
Proof. induction s as [|c s IH]; simpl; [reflexivity | now rewrite IH]. Qed.

Lemma length_zero (s : string) : String.length s = 0 -> s = "".
Proof. destruct s; [reflexivity | discriminate]. Qed.

(** Skipping a prefix of known length. *)
Lemma substring_skip (p s : string) (m : nat) :
  substring (String.length p) m (p ++ s) = substring 0 m s.
Proof. induction p as [|c p IH]; simpl; [reflexivity | exact IH]. Qed.

(** Taking exactly the first part of a concatenation. *)
Lemma substring_take (a rest : string) :
  substring 0 (String.length a) (a ++ rest) = a.
Proof.
  induction a as [|c a IH]; simpl.
  - destruct rest; reflexivity.
  - now rewrite IH.
Qed.

(** Taking at least the whole string. *)
Lemma substring_all (s : string) (m : nat) :
  String.length s <= m -> substring 0 m s = s.
Proof.
  revert m; induction s as [|c s IH]; intros m Hm.
  - destruct m; reflexivity.
  - destruct m as [|m]; simpl in *; [lia |].
    rewrite IH by lia. reflexivity.
Qed.

(** Every string splits at any position within it. *)
Lemma split_at (n : nat) (s : string) :
  n <= String.length s ->
  exists p t, s = p ++ t /\ String.length p = n.
Proof.
  revert s; induction n as [|n IH]; intros s Hn.
  - exists "", s. split; reflexivity.
  - destruct s as [|c s]; simpl in Hn; [lia |].
    destruct (IH s) as (p & t & -> & Hp); [lia |].
    exists (String c p), t. simpl. now rewrite Hp.
Qed.

Lemma allHex_append (s t : string) :
  JS.allHex (s ++ t) = JS.allHex s && JS.allHex t.
Proof.
  induction s as [|c s IH]; simpl; [reflexivity |].
  rewrite IH. now rewrite andb_assoc.
Qed.

End StringFacts.

(** ** [slice] *)

Section Slice.

Import StringFacts.

(** With indices in order and not negative, [slice] takes the
    characters from [b] up to [e], as far as the string goes. *)
Lemma slice_within (s : string) (b e : nat) :
  b <= e ->
  JS.slice s (Z.of_nat b) (Z.of_nat e)
  = substring (Nat.min b (String.length s))
      (Nat.min e (String.length s) - Nat.min b (String.length s)) s.
Proof.
  intros Hbe. unfold JS.slice, JS.clampIndex.
  destruct (Z.ltb_spec (Z.of_nat b) 0); [lia |].
  destruct (Z.ltb_spec (Z.of_nat e) 0); [lia |].
  f_equal; lia.
Qed.

(** [slice(8, 48)] of a string with 8, then 40, then more characters. *)
Lemma slice_8_48_full (p a rest : string) :
  String.length p = 8 -> String.length a = 40 ->
  JS.slice (p ++ a ++ rest) 8 48 = a.
Proof.
  intros Hp Ha.
  change 8%Z with (Z.of_nat 8). change 48%Z with (Z.of_nat 48).
  rewrite slice_within by lia.
  rewrite !length_append, Hp, Ha.
  replace (Nat.min 8 (8 + (40 + String.length rest))) with (String.length p)
    by lia.
  replace (Nat.min 48 (8 + (40 + String.length rest)) - String.length p)
    with (String.length a) by lia.
  rewrite substring_skip. apply substring_take.
Qed.

(** [slice(8, 48)] of a string with 8 and then fewer than 40
    characters is all that follows the eighth. *)
Lemma slice_8_48_short (p tail : string) :
  String.length p = 8 -> String.length tail <= 40 ->
  JS.slice (p ++ tail) 8 48 = tail.
Proof.
  intros Hp Ht.
  change 8%Z with (Z.of_nat 8). change 48%Z with (Z.of_nat 48).
  rewrite slice_within by lia.
  rewrite length_append, Hp.
  replace (Nat.min 8 (8 + String.length tail)) with (String.length p) by lia.
  rewrite substring_skip. apply substring_all. lia.
Qed.

End Slice.

(** ** The indicator test *)

Section Indicator.

(** Case analysis over the 256 code units. *)
Local Ltac each_char c :=
  destruct c as [[|] [|] [|] [|] [|] [|] [|] [|]].

Lemma lower_is_0 (c : ascii) :
  Ascii.eqb "0" (JS.toLowerCaseChar c) = true -> c = "0"%char.
Proof. each_char c; intros E; solve [reflexivity | discriminate E]. Qed.

Lemma lower_is_1 (c : ascii) :
  Ascii.eqb "1" (JS.toLowerCaseChar c) = true -> c = "1"%char.
Proof. each_char c; intros E; solve [reflexivity | discriminate E]. Qed.

Lemma lower_is_x (c : ascii) :
  Ascii.eqb "x" (JS.toLowerCaseChar c) = true -> sameLetter "x" "X" c.
Proof.
  each_char c; intros E;
    solve [left; reflexivity | right; reflexivity | discriminate E].
Qed.

Lemma lower_is_e (c : ascii) :
  Ascii.eqb "e" (JS.toLowerCaseChar c) = true -> sameLetter "e" "E" c.
Proof.
  each_char c; intros E;
    solve [left; reflexivity | right; reflexivity | discriminate E].
Qed.

Lemma lower_is_f (c : ascii) :
  Ascii.eqb "f" (JS.toLowerCaseChar c) = true -> sameLetter "f" "F" c.
Proof.
  each_char c; intros E;
    solve [left; reflexivity | right; reflexivity | discriminate E].
Qed.

(** One step of the test on a lower-cased string. *)
Lemma startsWith_lower_cons (a : ascii) (p c : string) :
  JS.startsWith (JS.toLowerCase c) (String a p) = true ->
  exists c0 c',
    c = String c0 c' /\ Ascii.eqb a (JS.toLowerCaseChar c0) = true /\
    JS.startsWith (JS.toLowerCase c') p = true.
Proof.
  destruct c as [|c0 c']; cbn [JS.toLowerCase JS.startsWith]; intros E.
  - discriminate E.
  - apply andb_prop in E as [E1 E2]. now exists c0, c'.
Qed.

(** The test of line 67 holds exactly of the strings that start with
    a spelling of [0xef0100]. *)
Lemma startsWith_indicator (c : string) :
  JS.startsWith (JS.toLowerCase c) DELEGATION_INDICATOR = true
  <-> StartsWithIndicator c.
Proof.
  split.
  - unfold DELEGATION_INDICATOR. intros E.
    apply startsWith_lower_cons in E as (c0 & s0 & -> & E0 & E).
    apply startsWith_lower_cons in E as (c1 & s1 & -> & E1 & E).
    apply startsWith_lower_cons in E as (c2 & s2 & -> & E2 & E).
    apply startsWith_lower_cons in E as (c3 & s3 & -> & E3 & E).
    apply startsWith_lower_cons in E as (c4 & s4 & -> & E4 & E).
    apply startsWith_lower_cons in E as (c5 & s5 & -> & E5 & E).
    apply startsWith_lower_cons in E as (c6 & s6 & -> & E6 & E).
    apply startsWith_lower_cons in E as (c7 & rest & -> & E7 & _).
    apply lower_is_0 in E0, E4, E6, E7. apply lower_is_1 in E5.
    apply lower_is_x in E1. apply lower_is_e in E2. apply lower_is_f in E3.
    subst.
    exists (String "0" (String c1 "")),
           (String c2 (String c3 "0100") ++ rest).
    split; [| split].
    + now constructor.
    + exists (String c2 (String c3 "0100")), rest.
      split; [now constructor | reflexivity].
    + reflexivity.
  - intros (p & body & Hp & (q & rest & Hq & ->) & ->).
    destruct Hp as [x [-> | ->]];
      destruct Hq as [e f [-> | ->] [-> | ->]]; reflexivity.
Qed.

Lemma not_startsWith_indicator (c : string) :
  JS.startsWith (JS.toLowerCase c) DELEGATION_INDICATOR = false
  <-> ~ StartsWithIndicator c.
Proof.
  rewrite <- startsWith_indicator.
  destruct (JS.startsWith _ _); split; congruence.
Qed.

(** A spelling of the indicator is eight characters long. *)
Lemma indicator_length (p q : string) :
  Spells_0x p -> Spells_ef0100 q -> String.length (p ++ q) = 8.
Proof. intros [x _] [e f _ _]. reflexivity. Qed.

(** A code that starts with the indicator is neither empty nor ["0x"]. *)
Lemma indicator_not_empty (c : string) :
  StartsWithIndicator c ->
  (String.eqb c "" || String.eqb c "0x") = false.
Proof.
  intros (p & body & [x _] & (q & rest & [e f _ _] & ->) & ->).
  simpl. destruct (Ascii.eqb x "x"); reflexivity.
Qed.

End Indicator.

(** ** Hexadecimal strings *)

Section Hex.

Lemma isHexDigit_HexChar (c : ascii) :
  JS.isHexDigit c = true <-> HexChar c.
Proof.
  unfold HexChar.
  destruct c as [[|] [|] [|] [|] [|] [|] [|] [|]];
    (split; [intros E; first [discriminate E | cbn; tauto]
            | intros E; first [reflexivity
                              | cbn in E; exfalso; intuition discriminate]]).
Qed.

Lemma allHex_HexString (h : string) :
  JS.allHex h = true <-> HexString h.
Proof.
  unfold HexString. induction h as [|c h IH]; simpl.
  - split; [constructor | reflexivity].
  - rewrite andb_true_iff, isHexDigit_HexChar, IH.
    split.
    + intros [Hc Hh]. now constructor.
    + intros Hall. inversion Hall; subst. now split.
Qed.

(** The pattern of the command line is the one the specification
    gives for an address. *)
Lemma testAddress_pattern (a : string) :
  JS.testAddress a = true <-> AddressPattern a.
Proof.
  unfold AddressPattern. split.
  - destruct a as [|c0 [|c1 h]]; simpl; try discriminate.
    + destruct c0 as [[|] [|] [|] [|] [|] [|] [|] [|]]; discriminate.
    + destruct c0 as [[|] [|] [|] [|] [|] [|] [|] [|]]; try discriminate.
      destruct c1 as [[|] [|] [|] [|] [|] [|] [|] [|]]; try discriminate.
      intros E. apply andb_prop in E as [El Eh].
      exists h. split; [reflexivity |]. split.
      * now apply Nat.eqb_eq.
      * now apply allHex_HexString.
  - intros (h & -> & Hl & Hh). simpl.
    apply andb_true_intro. split.
    + now apply Nat.eqb_eq.
    + now apply allHex_HexString.
Qed.

End Hex.

(** ** The inspection of the code read *)

Section Inspection.

Import StringFacts.

Variables addr networkName : string.

(** The record for a code that starts with the indicator. *)
Lemma inspect_indicator (c : string) :
  StartsWithIndicator c ->
  inspectCode addr networkName (Some c)
  = mkResult true addr networkName (Some ("0x" ++ JS.slice c 8 48))
      (Some c)
      (Some ("Address is delegated to " ++ "0x" ++ JS.slice c 8 48)) None.
Proof.
  intros Hc. unfold inspectCode.
  rewrite (indicator_not_empty c Hc).
  apply startsWith_indicator in Hc. rewrite Hc. reflexivity.
Qed.

(** The record for a code that is not empty and does not start with
    the indicator. *)
Lemma inspect_other (c : string) :
  c <> "" -> c <> "0x" -> ~ StartsWithIndicator c ->
  inspectCode addr networkName (Some c)
  = mkResult false addr networkName None (Some c)
      (Some "Address has code but no EIP-7702 delegation") None.
Proof.
  intros H1 H2 Hc. unfold inspectCode.
  apply String.eqb_neq in H1, H2. rewrite H1, H2.
  apply not_startsWith_indicator in Hc. rewrite Hc. reflexivity.
Qed.

(** The record is delegated exactly when the code starts with the
    indicator. *)
Lemma inspect_isDelegated (codeRead : option string) :
  isDelegated (inspectCode addr networkName codeRead) = true
  <-> exists c, codeRead = Some c /\ StartsWithIndicator c.
Proof.
  split.
  - destruct codeRead as [c|]; [| discriminate].
    unfold inspectCode.
    destruct (String.eqb c "" || String.eqb c "0x"); [discriminate |].
    destruct (JS.startsWith _ _) eqn:E; [| discriminate].
    intros _. exists c. split; [reflexivity |].
    now apply startsWith_indicator.
  - intros (c & -> & Hc). now rewrite inspect_indicator.
Qed.

(** A record without the indicator carries no delegate. *)
Lemma inspect_no_delegate (codeRead : option string) :
  isDelegated (inspectCode addr networkName codeRead) = false ->
  delegatedTo (inspectCode addr networkName codeRead) = None.
Proof.
  destruct codeRead as [c|]; [| reflexivity].
  unfold inspectCode.
  destruct (String.eqb c "" || String.eqb c "0x"); [reflexivity |].
  destruct (JS.startsWith _ _); [discriminate | reflexivity].
Qed.

End Inspection.

(** ** The delegation record: invariant and cases *)

Section Record_claims.

Import StringFacts.

Lemma slice_after_indicator (p q a rest : string) :
  Spells_0x p -> Spells_ef0100 q ->
  String.length a = 40 \/ (String.length a < 40 /\ rest = "") ->
  JS.slice (p ++ q ++ a ++ rest) 8 48 = a.
Proof.
  intros Hp Hq Ha. rewrite <- (append_assoc p q).
  pose proof (indicator_length p q Hp Hq) as Hl.
  destruct Ha as [Ha | [Ha ->]].
  - now apply slice_8_48_full.
  - rewrite append_nil_r. apply slice_8_48_short; [assumption | lia].
Qed.

Lemma validHex_digits (p q a rest : string) :
  Spells_0x p -> validHex (p ++ q ++ a ++ rest) = true -> HexString a.
Proof.
  intros [x Hx]. cbn [append]. unfold validHex.
  destruct (Ascii.eqb_spec x "x") as [-> | Hne].
  - intros E. apply andb_prop in E as [E _].
    rewrite !allHex_append in E.
    apply andb_prop in E as [_ E]. apply andb_prop in E as [E _].
    now apply allHex_HexString.
  - destruct Hx as [-> | ->]; [now elim Hne | discriminate].
Qed.

Lemma hex_code_no_indicator (body : string) :
  ~ StartsWith_ef0100 body -> ~ StartsWithIndicator ("0x" ++ body).
Proof.
  intros Hb (p & body' & [x _] & Hb' & E).
  injection E as _ E. now subst.
Qed.

(** C1, as amended: the record returned by the single-address check is
    delegated only when the code starts, in either case, with
    [0xef0100]; [delegatedTo] is then present and is [0x] followed by
    the characters [a] that come right after the indicator, up to forty
    of them: exactly forty (twenty bytes) when the code has that many
    after the indicator, and otherwise all that is left; they are hex
    digits when the code is valid hex.  When the code is empty or does
    not start with the indicator the record is not delegated and has no
    [delegatedTo]. *)
Theorem delegate_is_slice_after_indicator
    (addr networkName : string) (codeRead : option string) :
  (isDelegated (inspectCode addr networkName codeRead) = true ->
   exists c p q a rest,
     codeRead = Some c /\ Spells_0x p /\ Spells_ef0100 q /\
     c = p ++ q ++ a ++ rest /\
     delegatedTo (inspectCode addr networkName codeRead)
     = Some ("0x" ++ a) /\
     (String.length a = 40 \/ (String.length a < 40 /\ rest = "")) /\
     (validHex c = true -> HexString a))
  /\
  (EmptyCode codeRead \/
   (exists c, codeRead = Some c /\ ~ StartsWithIndicator c) ->
   isDelegated (inspectCode addr networkName codeRead) = false /\
   delegatedTo (inspectCode addr networkName codeRead) = None).
Proof.
  split.
  - intros Hd. apply inspect_isDelegated in Hd as (c & -> & Hc).
    rewrite (inspect_indicator addr networkName c Hc). cbn [delegatedTo].
    destruct Hc as (p & body & Hp & (q & tail & Hq & ->) & ->).
    destruct (split_at (Nat.min 40 (String.length tail)) tail)
      as (a & rest & -> & Ha); [lia |].
    rewrite length_append in Ha.
    assert (Hlen : String.length a = 40 \/
                   (String.length a < 40 /\ rest = "")).
    { destruct (Nat.le_gt_cases 40 (String.length a)) as [Hge | Hlt].
      - left. lia.
      - right. split; [assumption |]. apply length_zero. lia. }
    exists (p ++ q ++ a ++ rest), p, q, a, rest.
    repeat (split; [first [reflexivity | assumption] |]).
    split; [| split; [assumption |]].
    + now rewrite slice_after_indicator.
    + now apply validHex_digits.
  - intros H.
    assert (Hnot : isDelegated (inspectCode addr networkName codeRead)
                   = false).
    { destruct (isDelegated _) eqn:E; [| reflexivity].
      apply inspect_isDelegated in E as (c & -> & Hc).
      destruct H as [[H | [H | H]] | (c' & H & Hn)];
        try discriminate H; injection H as ->.
      - now apply indicator_not_empty in Hc.
      - now apply indicator_not_empty in Hc.
      - contradiction. }
    split; [exact Hnot | now apply inspect_no_delegate].
Qed.

(** C2: a code made of a spelling of [0xef0100], in either case,
    followed by exactly forty characters [a] gives a delegated record
    whose [delegatedTo] is [0x] followed by [a]; the forty characters
    are taken as they are, hex digits or not. *)
Theorem inspect_designator (addr networkName p q a : string) :
  Spells_0x p -> Spells_ef0100 q -> String.length a = 40 ->
  isDelegated (inspectCode addr networkName (Some (p ++ q ++ a))) = true /\
  delegatedTo (inspectCode addr networkName (Some (p ++ q ++ a)))
  = Some ("0x" ++ a).
Proof.
  intros Hp Hq Ha.
  assert (Hc : StartsWithIndicator (p ++ q ++ a)).
  { exists p, (q ++ a). split; [assumption |].
    split; [now exists q, a | reflexivity]. }
  rewrite (inspect_indicator addr networkName _ Hc).
  cbn [isDelegated delegatedTo]. split; [reflexivity |].
  rewrite <- (append_nil_r a) at 1.
  rewrite slice_after_indicator; auto.
Qed.

(** C5: on a code [0x] followed by a non-empty body that does not
    start, in either case, with [ef0100], the record is not delegated,
    keeps the whole code string and has no [delegatedTo]. *)
Theorem inspect_contract_code (addr networkName body : string) :
  body <> "" -> ~ StartsWith_ef0100 body ->
  inspectCode addr networkName (Some ("0x" ++ body))
  = mkResult false addr networkName None (Some ("0x" ++ body))
      (Some "Address has code but no EIP-7702 delegation") None.
Proof.
  intros Hne Hb. apply inspect_other.
  - discriminate.
  - intros E. injection E as E. contradiction.
  - now apply hex_code_no_indicator.
Qed.

(** C10: a code that starts, in either case, with [0xef0100] and has
    fewer than 48 characters still gives a delegated record;
    [delegatedTo] is [0x] followed by the fewer than forty characters
    that follow the eighth, which are [slice(8, 48)] of the code.
    Nothing is asked of their number or of their being hex digits. *)
Theorem inspect_short_designator (addr networkName c : string) :
  StartsWithIndicator c -> String.length c < 48 ->
  exists p tail,
    c = p ++ tail /\ String.length p = 8 /\ String.length tail < 40 /\
    JS.slice c 8 48 = tail /\
    inspectCode addr networkName (Some c)
    = mkResult true addr networkName (Some ("0x" ++ tail)) (Some c)
        (Some ("Address is delegated to " ++ "0x" ++ tail)) None.
Proof.
  intros Hc Hlen.
  rewrite (inspect_indicator addr networkName c Hc).
  destruct Hc as (p & body & Hp & (q & tail & Hq & ->) & ->).
  pose proof (indicator_length p q Hp Hq) as Hl.
  rewrite <- append_assoc in Hlen |- *.
  rewrite length_append in Hlen.
  assert (Hs : JS.slice ((p ++ q) ++ tail) 8 48 = tail)
    by (apply slice_8_48_short; lia).
  exists (p ++ q), tail. rewrite Hs.
  repeat split; [assumption | lia].
Qed.

End Record_claims.

(** ** The single-address check *)

Section Single_check.

Context `{Host}.

Lemma inspect_address (addr networkName : string) (codeRead : option string) :
  address (inspectCode addr networkName codeRead) = addr /\
  network (inspectCode addr networkName codeRead) = networkName.
Proof.
  unfold inspectCode. destruct codeRead as [c|]; [| now split].
  destruct (String.eqb c "" || String.eqb c "0x"); [now split |].
  destruct (JS.startsWith _ _); now split.
Qed.

(** A network that is an own key of the table passes the guard. *)
Lemma checkDelegation_own (addr networkName : string) (ch : Chain)
    (url : string) (st : Sys) :
  ownProperty networks networkName = Some (ch, url) ->
  checkDelegation addr networkName st
  = connectAndRead addr networkName (OwnEntry ch url) st.
Proof.
  intros Hown. unfold checkDelegation, networkValue. now rewrite Hown.
Qed.

(** A name found neither in the table nor on the prototype is refused
    before anything is read: the state is the one the call started in. *)
Lemma checkDelegation_undefined (addr networkName : string) (st : Sys) :
  networkValue networkName = Undefined ->
  checkDelegation addr networkName st
  = (Throw (unknownNetwork networkName), st).
Proof. intros Hu. unfold checkDelegation. now rewrite Hu. Qed.

(** A name found on the prototype passes the guard as well. *)
Lemma checkDelegation_inherited (addr networkName : string) (st : Sys) :
  networkValue networkName = Inherited ->
  checkDelegation addr networkName st
  = connectAndRead addr networkName Inherited st.
Proof. intros Hi. unfold checkDelegation. now rewrite Hi. Qed.

(** Past the guard: the client is made, the code is read and the record
    is the inspection of what was read. *)
Lemma connectAndRead_code (addr networkName : string) (v : NetworkValue)
    (client : Client) (codeRead : option string) (w : World) (st : Sys) :
  createPublicClient (chainOf v) (rpcUrlOf v) = inr client ->
  getCode client addr (world st) = (inr codeRead, w) ->
  connectAndRead addr networkName v st
  = (Ok (inspectCode addr networkName codeRead), mkSys _ w (console st)).
Proof.
  intros Hc Hg. unfold connectAndRead, bind, call, tryCatch, readCode, ret.
  rewrite Hc. cbn. now rewrite Hg.
Qed.

(** A failed read is thrown again under the prefix of line 93. *)
Lemma connectAndRead_transport (addr networkName : string) (v : NetworkValue)
    (client : Client) (msg : string) (w : World) (st : Sys) :
  createPublicClient (chainOf v) (rpcUrlOf v) = inr client ->
  getCode client addr (world st) = (inl msg, w) ->
  connectAndRead addr networkName v st
  = (Throw ("Failed to check delegation: " ++ msg), mkSys _ w (console st)).
Proof.
  intros Hc Hg. unfold connectAndRead, bind, call, tryCatch, readCode, throw.
  rewrite Hc. cbn. now rewrite Hg.
Qed.

(** A failure to make the client is thrown as it is, and nothing is read. *)
Lemma connectAndRead_no_client (addr networkName : string) (v : NetworkValue)
    (msg : string) (st : Sys) :
  createPublicClient (chainOf v) (rpcUrlOf v) = inl msg ->
  connectAndRead addr networkName v st = (Throw msg, st).
Proof.
  intros Hc. unfold connectAndRead, bind, call, throw. now rewrite Hc.
Qed.

(** On a network of the table, with a client made and a read that
    answers, the check returns the inspection of the answer and writes
    nothing. *)
Lemma checkDelegation_inspects (addr networkName : string) (ch : Chain)
    (url : string) (client : Client) (codeRead : option string)
    (w : World) (st : Sys) :
  ownProperty networks networkName = Some (ch, url) ->
  createPublicClient (Some ch) (Some url) = inr client ->
  getCode client addr (world st) = (inr codeRead, w) ->
  checkDelegation addr networkName st
  = (Ok (inspectCode addr networkName codeRead), mkSys _ w (console st)).
Proof.
  intros Hown Hclient Hread.
  rewrite (checkDelegation_own addr networkName ch url st Hown).
  now apply (connectAndRead_code _ _ _ client codeRead w).
Qed.

(** The check returns a record for its own address and network, or
    throws; it writes nothing and never ends the process. *)
Lemma checkDelegation_outcome (addr networkName : string) (st : Sys) :
  exists w,
    (exists r, checkDelegation addr networkName st
               = (Ok r, mkSys _ w (console st)) /\
               address r = addr /\ network r = networkName) \/
    (exists msg, checkDelegation addr networkName st
                 = (Throw msg, mkSys _ w (console st))).
Proof.
  destruct st as [w0 out]. unfold checkDelegation.
  destruct (falsy (networkValue networkName)).
  - exists w0. right. now eexists.
  - set (v := networkValue networkName).
    destruct (createPublicClient (chainOf v) (rpcUrlOf v)) as [msg|client] eqn:Hc.
    + exists w0. right. exists msg. now apply connectAndRead_no_client.
    + destruct (getCode client addr w0) as [[msg|codeRead] w] eqn:Hg.
      * exists w. right. eexists.
        now apply (connectAndRead_transport _ _ _ client msg w).
      * exists w. left. eexists. split.
        -- now apply (connectAndRead_code _ _ _ client codeRead w).
        -- apply inspect_address.
Qed.

(** The check reads the world and not the console: made in any state, it
    has the outcome and the world of the check made alone. *)
Lemma checkDelegation_alone (addr networkName : string) (st : Sys) :
  checkDelegation addr networkName st
  = (fst (checkAlone addr networkName (world st)),
     mkSys _ (snd (checkAlone addr networkName (world st))) (console st)).
Proof.
  destruct st as [w0 out]. unfold checkAlone, checkDelegation. cbn [world console].
  destruct (falsy (networkValue networkName)); [reflexivity |].
  unfold connectAndRead, bind, call, tryCatch, readCode, ret, throw.
  destruct (createPublicClient _ _) as [msg|client]; [reflexivity |].
  cbn [world console].
  destruct (getCode client addr w0) as [[msg|codeRead] w]; reflexivity.
Qed.

(** The entry of the batch for an address is always defined, and it
    carries that address. *)
Lemma entryOf_alone (addr networkName : string) (w : World) :
  exists e,
    entryOf addr networkName (fst (checkAlone addr networkName w)) = Some e /\
    address e = addr.
Proof.
  unfold checkAlone.
  destruct (checkDelegation_outcome addr networkName (mkSys _ w []))
    as (w' & [(r & -> & Ha & _) | (msg & ->)]); cbn.
  - now exists r.
  - now eexists.
Qed.

End Single_check.

(** ** The batch *)

Section Batch.

Context `{Host}.

Local Open Scope list_scope.

Lemma consoleLog_run (text : string) (st : Sys) :
  consoleLog text st = (Ok tt, mkSys _ (world st) (console st ++ [Log text])).
Proof. reflexivity. Qed.

Lemma consoleError_run (text : string) (st : Sys) :
  consoleError text st
  = (Ok tt, mkSys _ (world st) (console st ++ [Error text])).
Proof. reflexivity. Qed.

(** One turn of the loop pushes the entry of its address, whether the
    check returned or threw, and leaves the world where the check left
    it. *)
Lemma checkOne_run (networkName : string) (results : list DelegationResult)
    (addr : string) (st : Sys) :
  exists e lines,
    entryOf addr networkName (fst (checkAlone addr networkName (world st)))
    = Some e /\
    checkOne networkName results addr st
    = (Ok (results ++ [e]),
       mkSys _ (snd (checkAlone addr networkName (world st)))
         (console st ++ lines)).
Proof.
  unfold checkOne, tryCatch, bind. rewrite checkDelegation_alone.
  destruct (entryOf_alone addr networkName (world st)) as (e & He & _).
  destruct (checkAlone addr networkName (world st)) as [o w].
  cbn [fst snd] in *.
  destruct o as [r | msg | n]; cbn in He; [| | discriminate He];
    injection He as <-.
  - rewrite consoleLog_run. cbn [world console].
    destruct (isDelegated r && JS.truthy (delegatedTo r)).
    + rewrite consoleLog_run. cbn [world console ret].
      eexists _, [_; _]. split; [reflexivity |].
      now rewrite <- app_assoc.
    + cbn [ret]. eexists _, [_]. split; reflexivity.
  - rewrite consoleError_run. cbn [world console ret].
    eexists _, [_]. split; reflexivity.
Qed.

(** The loop never throws: it extends the array by one entry for each
    address, in order, each the entry of the check of that address made
    alone in the world the checks before it have left. *)
Lemma checkEach_run (networkName : string) (addresses : list string) :
  forall (results : list DelegationResult) (st : Sys),
  exists entries lines,
    checkEach networkName results addresses st
    = (Ok (results ++ entries),
       mkSys _ (worldAfter networkName addresses (world st))
         (console st ++ lines)) /\
    List.length entries = List.length addresses /\
    forall i a,
      nth_error addresses i = Some a ->
      nth_error entries i
      = entryOf a networkName
          (fst (checkAlone a networkName
                  (worldAfter networkName (firstn i addresses) (world st)))).
Proof.
  induction addresses as [|a rest IH]; intros results st.
  - exists [], []. cbn. rewrite !app_nil_r. destruct st.
    split; [reflexivity |]. split; [reflexivity |].
    intros [|i] b Hb; discriminate Hb.
  - destruct (checkOne_run networkName results a st) as (e & l1 & He & Hone).
    cbn [checkEach]. unfold bind at 1. rewrite Hone.
    destruct (IH (results ++ [e])
                 (mkSys _ (snd (checkAlone a networkName (world st)))
                    (console st ++ l1)))
      as (entries & l2 & Hrun & Hlen & Hnth).
    cbn [world console] in Hrun, Hnth.
    exists (e :: entries), (l1 ++ l2). split; [| split].
    + rewrite Hrun. cbn [worldAfter]. now rewrite <- !app_assoc.
    + cbn. now rewrite Hlen.
    + intros [|i] b Hb; cbn in Hb |- *.
      * injection Hb as <-. now rewrite He.
      * now apply Hnth.
Qed.

(** The batch is the loop started on the empty array, between the
    lines of its header and of its footer. *)
Lemma checkMultipleDelegations_run (addresses : list string)
    (networkName : string) (st : Sys) :
  exists entries lines,
    checkMultipleDelegations addresses networkName st
    = (Ok entries,
       mkSys _ (worldAfter networkName addresses (world st))
         (console st ++ lines)) /\
    List.length entries = List.length addresses /\
    forall i a,
      nth_error addresses i = Some a ->
      nth_error entries i
      = entryOf a networkName
          (fst (checkAlone a networkName
                  (worldAfter networkName (firstn i addresses) (world st)))).
Proof.
  unfold checkMultipleDelegations.
  unfold bind at 1. rewrite consoleLog_run.
  unfold bind at 1. rewrite consoleLog_run.
  unfold bind at 1. rewrite consoleLog_run.
  unfold bind at 1. rewrite consoleLog_run.
  cbn [world console]. unfold bind at 1.
  match goal with
  | |- context [checkEach _ _ _ ?s] =>
      destruct (checkEach_run networkName addresses [] s)
        as (entries & lines & Hrun & Hlen & Hnth)
  end.
  cbn [world console app] in Hrun, Hnth. rewrite Hrun.
  unfold bind at 1. rewrite consoleLog_run. cbn [world console ret].
  eexists entries, _. split; [| split; assumption].
  rewrite <- !app_assoc. reflexivity.
Qed.

(** C6: the batch returns one record for each address given, and the
    record at each index carries the address at that index. *)
Theorem batch_preserves_order (addresses : list string)
    (networkName : string) (st : Sys) :
  exists results st',
    checkMultipleDelegations addresses networkName st = (Ok results, st') /\
    List.length results = List.length addresses /\
    forall i a,
      nth_error addresses i = Some a ->
      exists r, nth_error results i = Some r /\ address r = a.
Proof.
  destruct (checkMultipleDelegations_run addresses networkName st)
    as (entries & lines & Hrun & Hlen & Hnth).
  exists entries. eexists. split; [exact Hrun |]. split; [exact Hlen |].
  intros i a Ha. rewrite (Hnth i a Ha).
  apply entryOf_alone.
Qed.

(** C7: the batch never throws.  An address whose check throws gets an
    entry of its own that records the message, and every entry is the
    one its address gets when checked alone, in the world the checks
    before it have left: no entry depends on whether another check
    threw. *)
Theorem batch_isolates_failures (addresses : list string)
    (networkName : string) (st : Sys) :
  exists results st',
    checkMultipleDelegations addresses networkName st = (Ok results, st') /\
    forall i a,
      nth_error addresses i = Some a ->
      (exists r,
         fst (checkAlone a networkName
                (worldAfter networkName (firstn i addresses) (world st)))
         = Ok r /\
         nth_error results i = Some r) \/
      (exists msg,
         fst (checkAlone a networkName
                (worldAfter networkName (firstn i addresses) (world st)))
         = Throw msg /\
         nth_error results i
         = Some (mkResult false a networkName None None None (Some msg))).
Proof.
  destruct (checkMultipleDelegations_run addresses networkName st)
    as (entries & lines & Hrun & _ & Hnth).
  exists entries. eexists. split; [exact Hrun |].
  intros i a Ha. specialize (Hnth i a Ha).
  destruct (entryOf_alone a networkName
              (worldAfter networkName (firstn i addresses) (world st)))
    as (e & He & _).
  destruct (fst (checkAlone a networkName _)) as [r | msg | n];
    [| | discriminate He].
  - left. now exists r.
  - right. now exists msg.
Qed.

End Batch.

(** ** The command line *)

Section Command_line.

Context `{Host}.

Local Open Scope list_scope.

(** Validation keeps the addresses that match the pattern, in order,
    and writes one line for each one it drops. *)
Lemma validate_run (addresses : list string) (st : Sys) :
  validate addresses st
  = (Ok (filter JS.testAddress addresses),
     mkSys _ (world st) (console st ++ reports addresses)).
Proof.
  revert st. induction addresses as [|a rest IH]; intros st.
  - unfold reports. cbn. rewrite app_nil_r. now destruct st.
  - cbn [validate filter]. unfold reports. cbn [filter].
    unfold bind at 1.
    destruct (JS.testAddress a); cbn [negb].
    + cbn [ret]. unfold bind at 1. rewrite IH. reflexivity.
    + unfold bind at 1. rewrite consoleError_run. cbn [ret].
      unfold bind at 1. rewrite IH. cbn [world console map].
      unfold reports. now rewrite <- app_assoc.
Qed.

Local Ltac log_step := unfold bind at 1; rewrite consoleLog_run.

Local Ltac console_extended :=
  cbn [console world]; rewrite <- ?app_assoc; reflexivity.

(** Displaying one address returns or throws, after writing some
    lines; it never ends the process. *)
Lemma displayDelegationInfo_outcome (addr networkName : string) (st : Sys) :
  exists o st' lines,
    displayDelegationInfo addr networkName st = (o, st') /\
    console st' = console st ++ lines /\
    ((exists r, o = Ok r) \/ (exists msg, o = Throw msg)).
Proof.
  unfold displayDelegationInfo. do 4 log_step.
  unfold tryCatch. unfold bind at 1.
  match goal with
  | |- context [checkDelegation _ _ ?s] =>
      destruct (checkDelegation_outcome addr networkName s)
        as (w & [(r & -> & _) | (msg & ->)])
  end.
  - do 2 log_step. unfold bind at 1.
    destruct (isDelegated r && JS.truthy (delegatedTo r)).
    + do 2 log_step. rewrite consoleLog_run. log_step. cbn [ret].
      eexists _, _, _. split; [reflexivity |].
      split; [console_extended | left; now eexists].
    + destruct (JS.truthy (code r)).
      * rewrite consoleLog_run. log_step. cbn [ret].
        eexists _, _, _. split; [reflexivity |].
        split; [console_extended | left; now eexists].
      * cbn [ret]. log_step. cbn [ret].
        eexists _, _, _. split; [reflexivity |].
        split; [console_extended | left; now eexists].
  - unfold bind at 1. rewrite consoleError_run. cbn [throw].
    eexists _, _, _. split; [reflexivity |].
    split; [console_extended | right; now eexists].
Qed.

(** What is dispatched returns or throws, after writing some lines;
    with two valid addresses or more it returns. *)
Lemma dispatch_outcome (valid : list string) (networkName : string)
    (st : Sys) :
  exists o st' lines,
    dispatch valid networkName st = (o, st') /\
    console st' = console st ++ lines /\
    (o = Ok tt \/ (List.length valid = 1 /\ exists msg, o = Throw msg)).
Proof.
  unfold dispatch. destruct (Nat.eqb_spec (List.length valid) 1) as [E | E].
  - unfold bind.
    destruct (displayDelegationInfo_outcome (nth 0 valid "") networkName st)
      as (o & st' & lines & -> & Hc & [(r & ->) | (msg & ->)]).
    + exists (Ok tt), st', lines. cbn [ret]. now intuition.
    + exists (Throw msg), st', lines. intuition eauto.
  - unfold bind.
    destruct (checkMultipleDelegations_run valid networkName st)
      as (entries & lines & -> & _).
    cbn [ret]. eexists _, _, lines. now intuition.
Qed.

(** C9: every address argument is tested against the pattern [0x]
    followed by exactly forty hexadecimal characters; the arguments
    that fail it are reported, one line each, and left out of the
    check.  The process ends with a status other than 0 exactly when no
    valid address is left or what is dispatched on the valid ones
    throws; with two valid addresses or more, whatever the checks of
    the single addresses do, it ends with 0. *)
Theorem cli_exit_status (args : list string) (st : Sys) :
  (forall a, JS.testAddress a = true <-> AddressPattern a) /\
  exists o st' later,
    cli args st = (o, st') /\
    console st' = console st ++ reports (cliAddresses args) ++ later /\
    (exitStatus o <> 0%Z <->
     filter JS.testAddress (cliAddresses args) = [] \/
     exists msg st2,
       dispatch (filter JS.testAddress (cliAddresses args)) (cliNetwork args)
         (mkSys _ (world st) (console st ++ reports (cliAddresses args)))
       = (Throw msg, st2)) /\
    (2 <= List.length (filter JS.testAddress (cliAddresses args)) ->
     exitStatus o = 0%Z).
Proof.
  split; [exact testAddress_pattern |].
  unfold cli. destruct args as [|a0 args'].
  - (* no argument: the usage, then exit 1 *)
    cbn [List.length Nat.eqb]. unfold bind at 1. unfold bind at 1.
    unfold usage. do 7 log_step. rewrite consoleLog_run. cbn [exit].
    eexists _, _, _. split; [reflexivity |].
    split; [| split].
    + cbn [cliAddresses]. console_extended.
    + cbn. split; [intros _; now left | intros _; discriminate].
    + cbn. lia.
  - cbn [List.length Nat.eqb]. unfold bind at 1. cbn [ret].
    set (args := a0 :: args').
    unfold bind at 1. rewrite validate_run.
    set (checked := mkSys _ (world st)
                      (console st ++ reports (cliAddresses args))).
    unfold bind at 1.
    destruct (filter JS.testAddress (cliAddresses args)) as [|v valid'].
    + (* no valid address: exit 1 *)
      cbn [List.length Nat.eqb]. unfold bind at 1.
      rewrite consoleError_run. cbn [exit].
      eexists _, _, _. split; [reflexivity |].
      split; [| split].
      * unfold checked. console_extended.
      * cbn. split; [intros _; now left | intros _; discriminate].
      * cbn. lia.
    + cbn [List.length Nat.eqb ret]. unfold tryCatch.
      destruct (dispatch_outcome (v :: valid') (cliNetwork args) checked)
        as (o & st2 & lines & Hd & Hc & [-> | (Hone & msg & ->)]);
        rewrite Hd.
      * (* the check returned: the script runs to its end *)
        eexists _, _, lines. split; [reflexivity |].
        split; [| split].
        -- rewrite Hc. unfold checked. console_extended.
        -- cbn. split; [intros E; now elim E |].
           intros [E | (msg & s & E)]; discriminate E.
        -- reflexivity.
      * (* a single address whose check threw: exit 1 *)
        unfold bind at 1. rewrite consoleError_run. cbn [exit].
        eexists _, _, _. split; [reflexivity |].
        split; [| split].
        -- cbn [console]. rewrite Hc. unfold checked. console_extended.
        -- cbn. split; [| intros _; discriminate].
           intros _. right. now exists msg, st2.
        -- cbn in Hone. cbn. lia.
Qed.

End Command_line.

(** ** What the check returns for what is read, and the network guard *)

Section Reads_and_guards.

Context `{Host}.

(** C4: on the empty-code marker (no code, the empty string or ["0x"])
    the record is not delegated, has neither [delegatedTo] nor [code],
    and its message is "No code at address (EOA or no delegation)";
    this is the record the check returns whenever the read answers with
    the marker. *)
Theorem inspect_empty_code (addr networkName : string)
    (codeRead : option string) :
  EmptyCode codeRead ->
  inspectCode addr networkName codeRead
  = mkResult false addr networkName None None
      (Some "No code at address (EOA or no delegation)") None /\
  forall ch url client w st,
    ownProperty networks networkName = Some (ch, url) ->
    createPublicClient (Some ch) (Some url) = inr client ->
    getCode client addr (world st) = (inr codeRead, w) ->
    checkDelegation addr networkName st
    = (Ok (mkResult false addr networkName None None
             (Some "No code at address (EOA or no delegation)") None),
       mkSys _ w (console st)).
Proof.
  intros Hempty.
  assert (E : inspectCode addr networkName codeRead
              = mkResult false addr networkName None None
                  (Some "No code at address (EOA or no delegation)") None).
  { destruct Hempty as [-> | [-> | ->]]; reflexivity. }
  split; [exact E |].
  intros ch url client w st Hown Hclient Hread.
  rewrite <- E. now apply (checkDelegation_inspects _ _ ch url client).
Qed.

(** C3, as amended: the check does not validate the code it reads and
    has no error for a malformed one.  When the node answers with a
    string that is not valid hex, the check returns, and the record is
    the one the pattern match alone gives: the no-code record for the
    empty string, the delegated record when the string starts, in
    either case, with [0xef0100], and otherwise the record that keeps
    the string as it is. *)
Theorem invalid_hex_is_inspected (addr networkName : string) (ch : Chain)
    (url : string) (client : Client) (c : string) (w : World) (st : Sys) :
  validHex c = false ->
  ownProperty networks networkName = Some (ch, url) ->
  createPublicClient (Some ch) (Some url) = inr client ->
  getCode client addr (world st) = (inr (Some c), w) ->
  exists r,
    checkDelegation addr networkName st = (Ok r, mkSys _ w (console st)) /\
    (c = "" ->
     r = mkResult false addr networkName None None
           (Some "No code at address (EOA or no delegation)") None) /\
    (StartsWithIndicator c ->
     r = mkResult true addr networkName (Some ("0x" ++ JS.slice c 8 48))
           (Some c)
           (Some ("Address is delegated to " ++ "0x" ++ JS.slice c 8 48))
           None) /\
    (c <> "" -> ~ StartsWithIndicator c ->
     r = mkResult false addr networkName None (Some c)
           (Some "Address has code but no EIP-7702 delegation") None).
Proof.
  intros Hhex Hown Hclient Hread.
  exists (inspectCode addr networkName (Some c)). split; [| split; [| split]].
  - now apply (checkDelegation_inspects _ _ ch url client).
  - intros ->. reflexivity.
  - apply inspect_indicator.
  - intros Hne Hni. apply inspect_other; try assumption.
    intros ->. discriminate Hhex.
Qed.

(** The names the guard of line 42 lets through are the keys of the
    table and the members of [Object.prototype]. *)
Lemma guard_passes (networkName : string) :
  falsy (networkValue networkName) = false <->
  JS.includes networkKeys networkName = true \/
  JS.includes Object_prototype_keys networkName = true.
Proof.
  unfold networkValue, networkKeys, networks, JS.includes.
  cbn [ownProperty map fst existsb].
  repeat (destruct (String.eqb networkName _); cbn [orb falsy];
          [intuition congruence |]).
  destruct (existsb _ _); cbn; intuition congruence.
Qed.

(** C8 at the name ["constructor"]: it is not a key of the table, yet
    the guard is passed and no unknown-network error is thrown; the
    check goes on to make a client, with neither chain nor URL, and to
    read the chain. *)
Theorem constructor_passes_network_guard (addr : string) (st : Sys) :
  JS.includes networkKeys "constructor" = false /\
  checkDelegation addr "constructor" st
  = connectAndRead addr "constructor" Inherited st /\
  (forall msg,
     createPublicClient None None = inl msg ->
     checkDelegation addr "constructor" st = (Throw msg, st)) /\
  (forall client codeRead w,
     createPublicClient None None = inr client ->
     getCode client addr (world st) = (inr codeRead, w) ->
     checkDelegation addr "constructor" st
     = (Ok (inspectCode addr "constructor" codeRead),
        mkSys _ w (console st))).
Proof.
  assert (E : checkDelegation addr "constructor" st
              = connectAndRead addr "constructor" Inherited st)
    by now apply checkDelegation_inherited.
  split; [reflexivity |]. split; [exact E |]. split.
  - intros msg Hc. rewrite E. now apply connectAndRead_no_client.
  - intros client codeRead w Hc Hg. rewrite E.
    now apply (connectAndRead_code _ _ _ client codeRead w).
Qed.

End Reads_and_guards.

(** ** The claims at concrete inputs *)

(** C1 as stated fails on the ten characters [0xef0100ab]: the record
    is delegated, and [delegatedTo] is ["0xab"], one byte and not
    twenty. *)
Lemma stated_invariant_fails_on_short_code :
  isDelegated (inspectCode addr1 "mainnet" (Some "0xef0100ab")) = true /\
  delegatedTo (inspectCode addr1 "mainnet" (Some "0xef0100ab"))
  = Some "0xab" /\
  ~ StatedInvariant "0xef0100ab"
      (inspectCode addr1 "mainnet" (Some "0xef0100ab")).
Proof.
  split; [reflexivity |]. split; [reflexivity |].
  intros [Hd _].
  destruct (Hd eq_refl) as (p & q & a & rest & _ & _ & _ & Hlen & Hto).
  cbn in Hto. injection Hto as <-. discriminate Hlen.
Qed.

(** C2 on the scenario of the specification. *)
Lemma inspect_designator_scenario :
  isDelegated
    (inspectCode addr1 "mainnet"
       (Some "0xef0100d8da6bf26964af9d7eed9e03e53415d37aa96045")) = true /\
  delegatedTo
    (inspectCode addr1 "mainnet"
       (Some "0xef0100d8da6bf26964af9d7eed9e03e53415d37aa96045"))
  = Some "0xd8da6bf26964af9d7eed9e03e53415d37aa96045".
Proof.
  apply (inspect_designator addr1 "mainnet" "0x" "ef0100"
           "d8da6bf26964af9d7eed9e03e53415d37aa96045").
  - constructor. left. reflexivity.
  - constructor; left; reflexivity.
  - reflexivity.
Defined.

(** C2 with the indicator in capitals. *)
Example inspect_designator_capitals :
  delegatedTo
    (inspectCode addr1 "mainnet"
       (Some "0XEF0100D8DA6BF26964AF9D7EED9E03E53415D37AA96045"))
  = Some "0xD8DA6BF26964AF9D7EED9E03E53415D37AA96045".
Proof. reflexivity. Qed.

(** C4 on ["0x"], the answer of the sample host for an address it does
    not know. *)
Lemma inspect_empty_code_0x :
  EmptyCode (Some "0x") /\
  inspectCode "0x5555555555555555555555555555555555555555" "base" (Some "0x")
  = mkResult false "0x5555555555555555555555555555555555555555" "base"
      None None (Some "No code at address (EOA or no delegation)") None /\
  @checkDelegation sampleHost "0x5555555555555555555555555555555555555555"
    "base" (@start sampleHost 0)
  = (Ok (mkResult false "0x5555555555555555555555555555555555555555" "base"
           None None (Some "No code at address (EOA or no delegation)") None),
     @mkSys sampleHost 1 []).
Proof.
  split; [right; right; reflexivity |].
  destruct (@inspect_empty_code sampleHost
              "0x5555555555555555555555555555555555555555" "base" (Some "0x")
              (or_intror (or_intror eq_refl))) as [Hrecord Hcheck].
  split; [exact Hrecord |].
  apply (Hcheck base "https://mainnet.base.org"
           (Some base, Some "https://mainnet.base.org") 1
           (@start sampleHost 0)); reflexivity.
Defined.

Lemma not_ef0100_6080604052 : ~ StartsWith_ef0100 "6080604052".
Proof. intros (q & rest & [e f _ _] & E). discriminate E. Qed.

(** C5 on the start of a contract's bytecode. *)
Lemma inspect_contract_code_6080604052 :
  "6080604052" <> "" /\ ~ StartsWith_ef0100 "6080604052" /\
  inspectCode addr3 "mainnet" (Some "0x6080604052")
  = mkResult false addr3 "mainnet" None (Some "0x6080604052")
      (Some "Address has code but no EIP-7702 delegation") None.
Proof.
  split; [discriminate |]. split; [exact not_ef0100_6080604052 |].
  apply (inspect_contract_code addr3 "mainnet" "6080604052").
  - discriminate.
  - exact not_ef0100_6080604052.
Defined.

Lemma indicator_0xEf0100zz : StartsWithIndicator "0xEf0100zz".
Proof. apply startsWith_indicator. reflexivity. Qed.

(** C10 on an indicator followed by two characters that are not hex
    digits. *)
Lemma inspect_short_designator_zz :
  StartsWithIndicator "0xEf0100zz" /\ String.length "0xEf0100zz" < 48 /\
  exists p tail,
    "0xEf0100zz" = p ++ tail /\ String.length p = 8 /\
    String.length tail < 40 /\ JS.slice "0xEf0100zz" 8 48 = tail /\
    inspectCode addr1 "mainnet" (Some "0xEf0100zz")
    = mkResult true addr1 "mainnet" (Some ("0x" ++ tail))
        (Some "0xEf0100zz")
        (Some ("Address is delegated to " ++ "0x" ++ tail)) None.
Proof.
  split; [exact indicator_0xEf0100zz |]. split; [cbn; lia |].
  apply (inspect_short_designator addr1 "mainnet" "0xEf0100zz").
  - exact indicator_0xEf0100zz.
  - cbn; lia.
Defined.

Example inspect_short_designator_value :
  delegatedTo (inspectCode addr1 "mainnet" (Some "0xEf0100zz")) = Some "0xzz".
Proof. reflexivity. Qed.

(** C3 as stated fails where the node answers ["0xzz"]: the string is
    not valid hex, and the check returns a record. *)
Lemma invalid_hex_is_not_refused :
  validHex "0xzz" = false /\
  @checkDelegation sampleHost addr4 "mainnet" (@start sampleHost 0)
  = (Ok (mkResult false addr4 "mainnet" None (Some "0xzz")
           (Some "Address has code but no EIP-7702 delegation") None),
     @mkSys sampleHost 1 []).
Proof. split; reflexivity. Qed.

(** An odd number of hex digits is not refused either. *)
Example odd_length_is_not_refused :
  validHex "0xabc" = false /\
  inspectCode addr1 "mainnet" (Some "0xabc")
  = mkResult false addr1 "mainnet" None (Some "0xabc")
      (Some "Address has code but no EIP-7702 delegation") None.
Proof. split; reflexivity. Qed.

(** C3 as amended, where the node answers ["0xzz"]. *)
Lemma invalid_hex_is_inspected_0xzz :
  validHex "0xzz" = false /\
  exists r,
    @checkDelegation sampleHost addr4 "mainnet" (@start sampleHost 0)
    = (Ok r, @mkSys sampleHost 1 []) /\
    ("0xzz" = "" ->
     r = mkResult false addr4 "mainnet" None None
           (Some "No code at address (EOA or no delegation)") None) /\
    (StartsWithIndicator "0xzz" ->
     r = mkResult true addr4 "mainnet"
           (Some ("0x" ++ JS.slice "0xzz" 8 48)) (Some "0xzz")
           (Some ("Address is delegated to " ++ "0x" ++ JS.slice "0xzz" 8 48))
           None) /\
    ("0xzz" <> "" -> ~ StartsWithIndicator "0xzz" ->
     r = mkResult false addr4 "mainnet" None (Some "0xzz")
           (Some "Address has code but no EIP-7702 delegation") None).
Proof.
  split; [reflexivity |].
  apply (@invalid_hex_is_inspected sampleHost addr4 "mainnet" mainnet
           "https://eth.llamarpc.com"
           (Some mainnet, Some "https://eth.llamarpc.com") "0xzz" 1
           (@start sampleHost 0)); reflexivity.
Defined.

(** C8 on the sample host, which makes a client whatever it is given:
    on the network ["constructor"] the check reads the chain and
    returns a record. *)
Example constructor_is_checked :
  @checkDelegation sampleHost addr3 "constructor" (@start sampleHost 0)
  = (Ok (mkResult false addr3 "constructor" None (Some "0x6080604052")
           (Some "Address has code but no EIP-7702 delegation") None),
     @mkSys sampleHost 1 []).
Proof. reflexivity. Qed.

(** A name that is in neither table is refused, and nothing is read. *)
Example ropsten_is_refused :
  @checkDelegation sampleHost addr3 "ropsten" (@start sampleHost 0)
  = (Throw "Unknown network: ropsten. Available networks: mainnet, sepolia, base, baseSepolia",
     @start sampleHost 0).
Proof. reflexivity. Qed.

(** C6 and C7 on three addresses, the second of which fails in the
    transport: three entries, in order, the second with the error. *)
Example batch_of_three :
  fst (@checkMultipleDelegations sampleHost [addr1; addr2; addr3] "sepolia"
         (@start sampleHost 0))
  = Ok [ mkResult true addr1 "sepolia"
           (Some "0xd8da6bf26964af9d7eed9e03e53415d37aa96045")
           (Some "0xef0100d8da6bf26964af9d7eed9e03e53415d37aa96045")
           (Some "Address is delegated to 0xd8da6bf26964af9d7eed9e03e53415d37aa96045")
           None;
         mkResult false addr2 "sepolia" None None None
           (Some "Failed to check delegation: HTTP request failed.");
         mkResult false addr3 "sepolia" None (Some "0x6080604052")
           (Some "Address has code but no EIP-7702 delegation") None ].
Proof. reflexivity. Qed.

(** C9 on four runs of the script. *)
Example cli_batch_with_failure_exits_0 :
  exitStatus
    (fst (@main sampleHost
            ["node"; "check-delegation.ts"; addr1; addr2; "0x12"; "sepolia"]
            (@start sampleHost 0))) = 0%Z.
Proof. reflexivity. Qed.

Example cli_single_failure_exits_1 :
  exitStatus
    (fst (@main sampleHost ["node"; "check-delegation.ts"; addr2]
            (@start sampleHost 0))) = 1%Z.
Proof. reflexivity. Qed.

Example cli_no_valid_address_exits_1 :
  @main sampleHost ["node"; "check-delegation.ts"; "0x12"; "base"]
    (@start sampleHost 0)
  = (Exit 1,
     @mkSys sampleHost 0
       [Error "Invalid address format: 0x12";
        Error "No valid addresses provided"]).
Proof. reflexivity. Qed.

Example cli_single_success_exits_0 :
  exitStatus
    (fst (@main sampleHost ["node"; "check-delegation.ts"; addr1; "base"]
            (@start sampleHost 0))) = 0%Z.
Proof. reflexivity. Qed.


(** * Further properties of the script *)

(** ** Arrays *)

Section Arrays.

Context {A : Type}.

Local Open Scope list_scope.

(** [a.slice(0, -1)] drops the last element and nothing else. *)
Lemma sliceA_drop_last (l : list A) (x : A) :
  JS.sliceA (l ++ [x]) 0 (-1) = l.
Proof.
  unfold JS.sliceA, JS.clampIndex. rewrite length_app. cbn [List.length].
  destruct (Z.ltb_spec 0 0); [lia |].
  destruct (Z.ltb_spec (-1) 0); [| lia].
  replace (Z.to_nat (Z.min 0 (Z.of_nat (List.length l + 1)))) with 0 by lia.
  replace (Z.to_nat
             (Z.max
                (Z.max (Z.of_nat (List.length l + 1) + -1) 0
                 - Z.min 0 (Z.of_nat (List.length l + 1))) 0))
    with (List.length l) by lia.
  cbn [skipn]. rewrite firstn_app, Nat.sub_diag, firstn_all. cbn.
  now rewrite app_nil_r.
Qed.

(** [a.slice(2)] drops the first two elements. *)
Lemma sliceFrom_2 (a b : A) (l : list A) :
  JS.sliceFrom (a :: b :: l) 2 = l.
Proof.
  unfold JS.sliceFrom, JS.sliceA, JS.clampIndex. cbn [List.length].
  destruct (Z.ltb_spec 2 0); [lia |].
  destruct (Z.ltb_spec (Z.of_nat (S (S (List.length l)))) 0); [lia |].
  replace (Z.to_nat (Z.min 2 (Z.of_nat (S (S (List.length l)))))) with 2
    by lia.
  cbn [skipn]. apply firstn_all2. lia.
Qed.

(** [a[a.length - 1]] is the last element. *)
Lemma last_argument (d : A) (l : list A) (x : A) :
  nth (List.length (l ++ [x]) - 1) (l ++ [x]) d = x.
Proof.
  rewrite length_app. cbn [List.length].
  replace (List.length l + 1 - 1) with (List.length l) by lia.
  rewrite app_nth2 by lia. now rewrite Nat.sub_diag.
Qed.

(** Two arrays of the same length with the same element at every index
    of the first are equal. *)
Lemma same_entries (f : nat -> option A) (n : nat) (l l' : list A) :
  List.length l = n -> List.length l' = n ->
  (forall i, i < n -> nth_error l i = f i) ->
  (forall i, i < n -> nth_error l' i = f i) ->
  l = l'.
Proof.
  intros Hl Hl' Hf Hf'. apply nth_error_ext. intros i.
  destruct (Nat.lt_ge_cases i n) as [Hi | Hi].
  - now rewrite Hf, Hf'.
  - transitivity (@None A); [| symmetry]; apply nth_error_None; lia.
Qed.

End Arrays.

(** ** The network table and the guard *)

Section Network_table.

Context `{Host}.

Lemma unknownNetwork_text (networkName : string) :
  unknownNetwork networkName
  = "Unknown network: " ++ networkName
    ++ ". Available networks: mainnet, sepolia, base, baseSepolia".
Proof. reflexivity. Qed.

Lemma orElse_not_empty (v : option string) (d : string) :
  d <> "" -> JS.orElse v d <> "".
Proof.
  intros Hd. unfold JS.orElse, JS.truthy.
  destruct v as [s|]; [| exact Hd]. cbn [JS.interp].
  destruct (String.eqb_spec s ""); cbn [negb]; assumption.
Qed.

(** X1: a name that is neither a key of the table nor a member of
    [Object.prototype] is refused with the message that lists the four
    networks, and the state is left as it was: nothing is read and
    nothing is written. *)
Theorem unlisted_network_is_refused (addr networkName : string) (st : Sys) :
  JS.includes networkKeys networkName = false ->
  JS.includes Object_prototype_keys networkName = false ->
  checkDelegation addr networkName st
  = (Throw ("Unknown network: " ++ networkName
            ++ ". Available networks: mainnet, sepolia, base, baseSepolia"),
     st).
Proof.
  intros Hkeys Hproto.
  assert (Hf : falsy (networkValue networkName) = true).
  { destruct (falsy (networkValue networkName)) eqn:E; [reflexivity |].
    apply guard_passes in E as [E | E]; congruence. }
  unfold checkDelegation. rewrite Hf. now rewrite unknownNetwork_text.
Qed.

(** X2: whatever the environment holds, the four networks of the table
    come with their own chain and with a URL that is not empty: an
    environment variable that is unset or empty gives way to the
    default. *)
Theorem registered_network_has_url (networkName : string) (ch : Chain)
    (url : string) :
  ownProperty networks networkName = Some (ch, url) ->
  url <> "" /\
  ((networkName = "mainnet" /\ ch = mainnet) \/
   (networkName = "sepolia" /\ ch = sepolia) \/
   (networkName = "base" /\ ch = base) \/
   (networkName = "baseSepolia" /\ ch = baseSepolia)).
Proof.
  unfold networks. cbn [ownProperty].
  destruct (String.eqb_spec networkName "mainnet") as [-> | _].
  { intros E. injection E as <- <-.
    split; [now apply orElse_not_empty | now left]. }
  destruct (String.eqb_spec networkName "sepolia") as [-> | _].
  { intros E. injection E as <- <-.
    split; [now apply orElse_not_empty | right; now left]. }
  destruct (String.eqb_spec networkName "base") as [-> | _].
  { intros E. injection E as <- <-.
    split; [now apply orElse_not_empty | right; right; now left]. }
  destruct (String.eqb_spec networkName "baseSepolia") as [-> | _].
  { intros E. injection E as <- <-.
    split; [now apply orElse_not_empty | right; right; now right]. }
  discriminate.
Qed.

End Network_table.

(** ** More on the record *)

Section Record_facts.

Import StringFacts.

Lemma toLowerCaseChar_twice (c : ascii) :
  JS.toLowerCaseChar (JS.toLowerCaseChar c) = JS.toLowerCaseChar c.
Proof. destruct c as [[|] [|] [|] [|] [|] [|] [|] [|]]; reflexivity. Qed.

Lemma toLowerCase_twice (s : string) :
  JS.toLowerCase (JS.toLowerCase s) = JS.toLowerCase s.
Proof.
  induction s as [|c s IH]; cbn [JS.toLowerCase]; [reflexivity |].
  now rewrite toLowerCaseChar_twice, IH.
Qed.


(** X4: what follows the twenty bytes of the delegate is ignored: a
    code that goes on after the forty characters gives the same
    [delegatedTo] as the code cut after them. *)
Theorem trailing_code_is_ignored (addr networkName p q a rest : string) :
  Spells_0x p -> Spells_ef0100 q -> String.length a = 40 ->
  isDelegated (inspectCode addr networkName (Some (p ++ q ++ a ++ rest)))
  = true /\
  delegatedTo (inspectCode addr networkName (Some (p ++ q ++ a ++ rest)))
  = Some ("0x" ++ a) /\
  code (inspectCode addr networkName (Some (p ++ q ++ a ++ rest)))
  = Some (p ++ q ++ a ++ rest).
Proof.
  intros Hp Hq Ha.
  assert (Hc : StartsWithIndicator (p ++ q ++ a ++ rest)).
  { exists p, (q ++ a ++ rest). split; [assumption |].
    split; [now exists q, (a ++ rest) | reflexivity]. }
  rewrite (inspect_indicator addr networkName _ Hc).
  cbn [isDelegated delegatedTo code].
  rewrite slice_after_indicator; auto.
Qed.

(** X5: whether the record is delegated does not depend on the case of
    the letters of the code. *)
Theorem isDelegated_ignores_case (addr networkName c : string) :
  isDelegated (inspectCode addr networkName (Some (JS.toLowerCase c)))
  = isDelegated (inspectCode addr networkName (Some c)).
Proof.
  destruct (isDelegated (inspectCode addr networkName (Some c))) eqn:E.
  - apply inspect_isDelegated in E as (c' & [= <-] & Hc).
    apply inspect_isDelegated. exists (JS.toLowerCase c).
    split; [reflexivity |].
    apply startsWith_indicator. rewrite toLowerCase_twice.
    now apply startsWith_indicator.
  - destruct (isDelegated (inspectCode addr networkName
                             (Some (JS.toLowerCase c)))) eqn:E';
      [| reflexivity].
    apply inspect_isDelegated in E' as (c' & [= <-] & Hc).
    apply startsWith_indicator in Hc. rewrite toLowerCase_twice in Hc.
    apply startsWith_indicator in Hc.
    assert (isDelegated (inspectCode addr networkName (Some c)) = true)
      by (apply inspect_isDelegated; now exists c).
    congruence.
Qed.

End Record_facts.

(** ** More on the single-address check *)

Section Check_facts.

Context `{Host}.

Local Open Scope list_scope.

(** A record the check returns is the inspection of what was read. *)
Lemma checkDelegation_record (addr networkName : string)
    (r : DelegationResult) (st st' : Sys) :
  checkDelegation addr networkName st = (Ok r, st') ->
  exists codeRead, r = inspectCode addr networkName codeRead.
Proof.
  destruct st as [w0 out]. unfold checkDelegation.
  destruct (falsy (networkValue networkName)); [discriminate |].
  unfold connectAndRead, bind, call, tryCatch, readCode, ret, throw.
  destruct (createPublicClient _ _) as [msg|client]; [discriminate |].
  cbn [world console].
  destruct (getCode client addr w0) as [[msg|codeRead] w]; [discriminate |].
  intros E. injection E as <- _. now exists codeRead.
Qed.




End Check_facts.

(** ** [displayDelegationInfo] *)

Section Display.

Context `{Host}.

Import StringFacts.

Local Open Scope list_scope.

Local Ltac log_step := unfold bind at 1; rewrite consoleLog_run.

(** The check made after some lines were written is the check made
    before, with those lines in the console. *)
Lemma checkDelegation_after_lines (addr networkName : string) (st : Sys)
    (lines : list Line) :
  checkDelegation addr networkName
    (mkSys _ (world st) (console st ++ lines))
  = (fst (checkDelegation addr networkName st),
     mkSys _ (world (snd (checkDelegation addr networkName st)))
       (console st ++ lines)).
Proof.
  rewrite (checkDelegation_alone addr networkName st).
  rewrite (checkDelegation_alone addr networkName (mkSys _ _ _)).
  reflexivity.
Qed.

(** The first 66 characters, and whether something was cut. *)
Lemma slice_0_66 (c : string) :
  (String.length c <= 66 -> JS.slice c 0 66 = c) /\
  (66 < String.length c ->
   exists p rest,
     c = (p ++ rest)%string /\ String.length p = 66 /\ JS.slice c 0 66 = p).
Proof.
  assert (E : JS.slice c 0 66
              = substring 0 (Nat.min 66 (String.length c)) c).
  { pose proof (slice_within c 0 66) as Hs. cbn [Nat.min] in Hs.
    rewrite Nat.sub_0_r in Hs. apply Hs. lia. }
  rewrite E. split.
  - intros Hle. apply substring_all. lia.
  - intros Hlt. destruct (split_at 66 c) as (p & rest & -> & Hp); [lia |].
    exists p, rest. split; [reflexivity |]. split; [assumption |].
    rewrite length_append, Hp.
    replace (Nat.min 66 (66 + String.length rest)) with (String.length p)
      by lia.
    apply substring_take.
Qed.

(** X8: displaying an address changes nothing to what the check gives:
    the outcome, a record or an exception, is that of the check made
    in the same state, and so is the world; the display only adds lines
    to the console. *)
Theorem display_returns_what_check_returns (addr networkName : string)
    (st : Sys) :
  exists lines,
    displayDelegationInfo addr networkName st
    = (fst (checkDelegation addr networkName st),
       mkSys _ (world (snd (checkDelegation addr networkName st)))
         (console st ++ lines)).
Proof.
  unfold displayDelegationInfo. do 4 log_step.
  unfold tryCatch. unfold bind at 1. cbn [world console].
  rewrite <- !app_assoc. rewrite checkDelegation_after_lines.
  destruct (checkDelegation_outcome addr networkName st)
    as (w & [(r & -> & _) | (msg & ->)]); cbn [fst snd world console].
  - do 2 log_step. unfold bind at 1.
    destruct (isDelegated r && JS.truthy (delegatedTo r)).
    + do 2 log_step. rewrite consoleLog_run. log_step. cbn [ret world console].
      eexists. rewrite <- !app_assoc. reflexivity.
    + destruct (JS.truthy (code r)).
      * rewrite consoleLog_run. log_step. cbn [ret world console].
        eexists. rewrite <- !app_assoc. reflexivity.
      * cbn [ret]. log_step. cbn [ret world console].
        eexists. rewrite <- !app_assoc. reflexivity.
  - unfold bind at 1. rewrite consoleError_run. cbn [throw world console].
    eexists. rewrite <- !app_assoc. reflexivity.
Qed.

(** X9: when the check throws, the display writes its four lines of
    header and then the message of the exception on [console.error],
    and throws the same exception again. *)
Theorem display_reports_failure (addr networkName msg : string) (st : Sys) :
  fst (checkDelegation addr networkName st) = Throw msg ->
  displayDelegationInfo addr networkName st
  = (Throw msg,
     mkSys _ (world (snd (checkDelegation addr networkName st)))
       (console st ++
        [ Log (JS.newline ++ "=== EIP-7702 Delegation Check ===");
          Log ("Address: " ++ addr);
          Log ("Network: " ++ networkName);
          Log ("================================" ++ JS.newline);
          Error (JS.newline ++ "Error: " ++ msg) ])).
Proof.
  intros Hthrow.
  unfold displayDelegationInfo. do 4 log_step.
  unfold tryCatch. unfold bind at 1. cbn [world console].
  rewrite <- !app_assoc. rewrite checkDelegation_after_lines.
  rewrite Hthrow.
  unfold bind at 1. rewrite consoleError_run. cbn [throw world console].
  rewrite <- !app_assoc. reflexivity.
Qed.

(** X10: for an address that has code and no delegation, the display
    shows the code up to its 66th character (the [0x] and 32 bytes),
    whole when it is no longer than that and followed by three dots
    when it is. *)
Theorem display_shows_start_of_code (addr networkName c : string)
    (r : DelegationResult) (st : Sys) :
  fst (checkDelegation addr networkName st) = Ok r ->
  isDelegated r = false -> code r = Some c ->
  exists shown,
    console (snd (displayDelegationInfo addr networkName st))
    = console st ++
      [ Log (JS.newline ++ "=== EIP-7702 Delegation Check ===");
        Log ("Address: " ++ addr);
        Log ("Network: " ++ networkName);
        Log ("================================" ++ JS.newline);
        Log "Status: ✗ NOT DELEGATED";
        Log "Message: Address has code but no EIP-7702 delegation";
        Log (JS.newline ++ "Code found: " ++ shown);
        Log (JS.newline ++ "================================" ++ JS.newline) ]
    /\
    (String.length c <= 66 -> shown = c) /\
    (66 < String.length c ->
     exists p rest,
       c = (p ++ rest)%string /\ String.length p = 66 /\
       shown = (p ++ "...")%string).
Proof.
  intros Hok Hnd Hcode.
  assert (Hr : r = mkResult false addr networkName None (Some c)
                     (Some "Address has code but no EIP-7702 delegation")
                     None /\ c <> ""%string).
  { destruct (checkDelegation addr networkName st) as [o s] eqn:E.
    cbn [fst] in Hok. subst o.
    destruct (checkDelegation_record _ _ _ _ _ E) as (codeRead & ->).
    revert Hnd Hcode. unfold inspectCode.
    destruct codeRead as [c'|]; [| discriminate].
    destruct (String.eqb_spec c' "") as [He | Hne]; cbn [orb];
      [discriminate |].
    destruct (String.eqb c' "0x"); [discriminate |].
    destruct (JS.startsWith _ _); [discriminate |].
    cbn. intros _ [= ->]. now split. }
  destruct Hr as [-> Hne].
  unfold displayDelegationInfo. do 4 log_step.
  unfold tryCatch. unfold bind at 1. cbn [world console].
  rewrite <- !app_assoc. rewrite checkDelegation_after_lines.
  rewrite Hok.
  do 2 log_step. unfold bind at 1.
  cbn [isDelegated delegatedTo code message andb JS.truthy JS.interp].
  apply String.eqb_neq in Hne. rewrite Hne. cbn [negb].
  rewrite consoleLog_run. log_step. cbn [ret snd world console].
  rewrite <- !app_assoc. cbn [app].
  destruct (slice_0_66 c) as [Hshort Hlong].
  destruct (Nat.ltb_spec 66 (String.length c)) as [Hlt | Hle].
  - destruct (Hlong Hlt) as (p & rest & Hc & Hp & Hs).
    exists (p ++ "...")%string. rewrite Hs.
    split; [reflexivity |]. split; [lia |]. intros _. now exists p, rest.
  - exists c. rewrite (Hshort Hle), append_nil_r.
    split; [reflexivity |]. split; [reflexivity | lia].
Qed.

End Display.

(** ** More on the batch *)

Section Batch_facts.

Context `{Host}.

Local Open Scope list_scope.

Lemma worldAfter_app (networkName : string) (l1 l2 : list string)
    (w : World) :
  worldAfter networkName (l1 ++ l2) w
  = worldAfter networkName l2 (worldAfter networkName l1 w).
Proof.
  revert w. induction l1 as [|a l1 IH]; intros w; cbn; [reflexivity |].
  apply IH.
Qed.

(** A name that is in neither table is [undefined] in [networks]. *)
Lemma unlisted_is_undefined (networkName : string) :
  JS.includes networkKeys networkName = false ->
  JS.includes Object_prototype_keys networkName = false ->
  networkValue networkName = Undefined.
Proof.
  intros Hkeys Hproto.
  destruct (falsy (networkValue networkName)) eqn:E.
  - destruct (networkValue networkName); [discriminate E.. | reflexivity].
  - apply guard_passes in E as [E | E]; congruence.
Qed.

(** The record of a check made alone is the inspection of some code. *)
Lemma checkAlone_record (addr networkName : string) (w : World)
    (r : DelegationResult) :
  fst (checkAlone addr networkName w) = Ok r ->
  address r = addr /\ network r = networkName /\
  exists codeRead, r = inspectCode addr networkName codeRead.
Proof.
  unfold checkAlone.
  destruct (checkDelegation addr networkName (mkSys _ w [])) as [o s] eqn:E.
  cbn [fst]. intros ->.
  destruct (checkDelegation_record _ _ _ _ _ E) as (codeRead & ->).
  destruct (inspect_address addr networkName codeRead) as [Ha Hn].
  repeat split; try assumption. now exists codeRead.
Qed.

(** X11: the batch called with a name that is in neither table does not
    fail: it reads nothing and returns one entry for each address, each
    with the unknown-network message as its [error]. *)
Theorem batch_on_unlisted_network (addresses : list string)
    (networkName : string) (st : Sys) :
  JS.includes networkKeys networkName = false ->
  JS.includes Object_prototype_keys networkName = false ->
  exists st',
    checkMultipleDelegations addresses networkName st
    = (Ok (map (fun a =>
                  mkResult false a networkName None None None
                    (Some ("Unknown network: " ++ networkName ++
                           ". Available networks: mainnet, sepolia, base, baseSepolia")%string))
               addresses),
       st') /\
    world st' = world st.
Proof.
  intros Hkeys Hproto.
  pose proof (unlisted_is_undefined networkName Hkeys Hproto) as Hu.
  assert (Halone : forall a w,
            checkAlone a networkName w
            = (Throw (unknownNetwork networkName), w)).
  { intros a w. unfold checkAlone.
    now rewrite (checkDelegation_undefined a networkName _ Hu). }
  assert (Hworld : forall l w, worldAfter networkName l w = w).
  { induction l as [|a l IH]; intros w; cbn; [reflexivity |].
    now rewrite Halone, IH. }
  destruct (checkMultipleDelegations_run addresses networkName st)
    as (entries & lines & Hrun & Hlen & Hnth).
  rewrite Hworld in Hrun.
  exists (mkSys _ (world st) (console st ++ lines)).
  split; [| reflexivity].
  rewrite Hrun. apply (f_equal (fun r => (Ok r, _))).
  apply (same_entries
           (fun i => option_map
                       (fun a => failedEntry a networkName
                                   (unknownNetwork networkName))
                       (nth_error addresses i))
           (List.length addresses)).
  - exact Hlen.
  - apply length_map.
  - intros i Hi.
    destruct (nth_error addresses i) as [a|] eqn:Ea.
    + rewrite (Hnth i a Ea), Halone. reflexivity.
    + apply nth_error_None in Ea. lia.
  - intros i Hi. rewrite nth_error_map. reflexivity.
Qed.

(** X12: checking two lists one after the other gives, put end to end,
    the entries of the check of the two lists put end to end, and
    leaves the same world. *)
Theorem batch_of_concatenation (l1 l2 : list string) (networkName : string)
    (st : Sys) :
  exists r1 r2 st1 st2 st12,
    checkMultipleDelegations l1 networkName st = (Ok r1, st1) /\
    checkMultipleDelegations l2 networkName st1 = (Ok r2, st2) /\
    checkMultipleDelegations (l1 ++ l2) networkName st
    = (Ok (r1 ++ r2), st12) /\
    world st12 = world st2.
Proof.
  destruct (checkMultipleDelegations_run l1 networkName st)
    as (r1 & lines1 & Hrun1 & Hlen1 & Hnth1).
  set (st1 := mkSys _ (worldAfter networkName l1 (world st))
                (console st ++ lines1)) in *.
  destruct (checkMultipleDelegations_run l2 networkName st1)
    as (r2 & lines2 & Hrun2 & Hlen2 & Hnth2).
  destruct (checkMultipleDelegations_run (l1 ++ l2) networkName st)
    as (r12 & lines12 & Hrun12 & Hlen12 & Hnth12).
  exists r1, r2, st1. eexists. eexists.
  split; [exact Hrun1 |]. split; [exact Hrun2 |].
  assert (E : r12 = r1 ++ r2).
  { apply (same_entries
             (fun i =>
                match nth_error (l1 ++ l2) i with
                | Some a =>
                    entryOf a networkName
                      (fst (checkAlone a networkName
                              (worldAfter networkName (firstn i (l1 ++ l2))
                                 (world st))))
                | None => None
                end)
             (List.length (l1 ++ l2))).
    - exact Hlen12.
    - rewrite !length_app. lia.
    - intros i Hi.
      destruct (nth_error (l1 ++ l2) i) as [a|] eqn:Ea.
      + now apply Hnth12.
      + apply nth_error_None in Ea. lia.
    - intros i Hi. rewrite length_app in Hi.
      destruct (Nat.lt_ge_cases i (List.length l1)) as [Hlt | Hge].
      + rewrite nth_error_app1 by lia.
        rewrite (nth_error_app1 l1 l2) by lia.
        destruct (nth_error l1 i) as [a|] eqn:Ea.
        * rewrite (Hnth1 i a Ea). rewrite firstn_app.
          replace (i - List.length l1) with 0 by lia.
          cbn [firstn]. now rewrite app_nil_r.
        * apply nth_error_None in Ea. lia.
      + rewrite nth_error_app2 by lia.
        rewrite (nth_error_app2 l1 l2) by lia. rewrite Hlen1.
        destruct (nth_error l2 (i - List.length l1)) as [a|] eqn:Ea.
        * rewrite (Hnth2 _ a Ea). cbn [world st1].
          rewrite firstn_app. rewrite (firstn_all2 (n := i) l1) by lia.
          now rewrite worldAfter_app.
        * apply nth_error_None in Ea. lia. }
  subst r12. split; [exact Hrun12 |].
  cbn [world st1]. now rewrite worldAfter_app.
Qed.

(** X13: every entry of a batch is of one of two shapes and carries the
    network of the batch.  Either it is a record of the check, with a
    message and without [error]; or it is the entry of a failure: not
    delegated, with the message of the exception as [error] and no
    other field than the address and the network. *)
Theorem batch_entries_have_message_or_error (addresses : list string)
    (networkName : string) (st st' : Sys) (results : list DelegationResult)
    (e : DelegationResult) :
  checkMultipleDelegations addresses networkName st = (Ok results, st') ->
  In e results ->
  network e = networkName /\ In (address e) addresses /\
  ((error e = None /\ exists m, message e = Some m) \/
   (exists msg,
      e = mkResult false (address e) networkName None None None (Some msg))).
Proof.
  intros Hrun Hin.
  destruct (checkMultipleDelegations_run addresses networkName st)
    as (entries & lines & Hrun' & Hlen & Hnth).
  rewrite Hrun' in Hrun. injection Hrun as <- _.
  apply In_nth_error in Hin as (i & Hi).
  assert (Hlt : i < List.length addresses).
  { rewrite <- Hlen. apply nth_error_Some. congruence. }
  destruct (nth_error addresses i) as [a|] eqn:Ea;
    [| apply nth_error_None in Ea; lia].
  rewrite (Hnth i a Ea) in Hi.
  assert (Ha : In a addresses) by (eapply nth_error_In; eassumption).
  destruct (fst (checkAlone a networkName _)) as [r | msg | n] eqn:Eo;
    cbn in Hi; [| | discriminate Hi]; injection Hi as <-.
  - destruct (checkAlone_record _ _ _ _ Eo) as (Hadr & Hnet & codeRead & Hr).
    rewrite Hadr. split; [assumption |]. split; [assumption |]. left.
    rewrite Hr. unfold inspectCode.
    destruct codeRead as [c|];
      [destruct (String.eqb c "" || String.eqb c "0x");
       [| destruct (JS.startsWith _ _)] |];
      cbn; split; eauto.
  - cbn. split; [reflexivity |]. split; [assumption |]. right. now exists msg.
Qed.

(** X14: the batch of no address reads nothing and returns the empty
    array, between its header, which counts 0 addresses, and its
    footer. *)
Theorem batch_of_nothing (networkName : string) (st : Sys) :
  checkMultipleDelegations [] networkName st
  = (Ok [],
     mkSys _ (world st)
       (console st ++
        [ Log (JS.newline ++ "=== Checking Multiple Addresses ===");
          Log ("Network: " ++ networkName);
          Log "Total addresses: 0";
          Log ("===================================" ++ JS.newline);
          Log (JS.newline ++ "===================================" ++ JS.newline) ])).
Proof.
  unfold checkMultipleDelegations.
  do 4 (unfold bind at 1; rewrite consoleLog_run).
  unfold bind at 1. cbn [checkEach ret world console].
  unfold bind at 1. rewrite consoleLog_run. cbn [ret world console].
  rewrite <- !app_assoc. reflexivity.
Qed.

End Batch_facts.

(** ** More on the command line *)

Section Command_line_facts.

Context `{Host}.

Local Open Scope list_scope.

Local Ltac log_step := unfold bind at 1; rewrite consoleLog_run.

(** A key of the table has an entry in it. *)
Lemma key_has_entry (networkName : string) :
  JS.includes networkKeys networkName = true ->
  exists ch url, ownProperty networks networkName = Some (ch, url).
Proof.
  unfold JS.includes, networkKeys, networks. cbn [map fst existsb ownProperty].
  repeat (destruct (String.eqb networkName _); [intros _; now eexists _, _ |]).
  discriminate.
Qed.

(** The script run on no argument. *)
Lemma cli_no_argument (st : Sys) :
  cli [] st
  = (Exit 1,
     mkSys _ (world st)
       (console st ++
        [ Log (JS.newline ++ "Usage:");
          Log "  Single address: ts-node scripts/check-delegation.ts <address> [network]";
          Log "  Multiple addresses: ts-node scripts/check-delegation.ts <address1> <address2> ... [network]";
          Log (JS.newline ++ "Supported networks: mainnet, sepolia, base, baseSepolia");
          Log (JS.newline ++ "Examples:");
          Log "  ts-node scripts/check-delegation.ts 0x742d35Cc6634C0532925a3b844Bc9e7595f0bEb";
          Log "  ts-node scripts/check-delegation.ts 0x742d35Cc6634C0532925a3b844Bc9e7595f0bEb base";
          Log ("  ts-node scripts/check-delegation.ts 0xAddr1 0xAddr2 0xAddr3 sepolia" ++ JS.newline) ])).
Proof.
  unfold cli. cbn [List.length Nat.eqb]. unfold bind at 1. unfold bind at 1.
  unfold usage. do 7 log_step. rewrite consoleLog_run. cbn [exit world console].
  rewrite <- !app_assoc. reflexivity.
Qed.

(** The script run on some arguments, after the validation. *)
Lemma cli_some_arguments (args : list string) (st : Sys) :
  args <> [] ->
  cli args st
  = ((if (List.length (filter JS.testAddress (cliAddresses args)) =? 0)%nat
      then consoleError "No valid addresses provided" ;; exit 1
      else ret tt) ;;
     tryCatch
       (dispatch (filter JS.testAddress (cliAddresses args)) (cliNetwork args))
       (fun msg =>
          consoleError (JS.newline ++ "Fatal error: " ++ msg)%string ;;
          exit 1))%js
      (mkSys _ (world st) (console st ++ reports (cliAddresses args))).
Proof.
  intros Hne. destruct args as [|a0 args']; [now elim Hne |].
  unfold cli. cbn [List.length Nat.eqb]. unfold bind at 1. cbn [ret].
  unfold bind at 1. rewrite validate_run. reflexivity.
Qed.

(** On no argument there is no address. *)
Lemma cliAddresses_nil : cliAddresses [] = [].
Proof. reflexivity. Qed.

(** X15: only the last argument can name the network.  When it is one
    of the four keys of the table it is the network and the arguments
    before it are the addresses; when it is not, the network is
    ["mainnet"] and every argument, the last one too, is taken as an
    address. *)
Theorem cli_reads_network_from_last_argument :
  (forall before net,
     JS.includes networkKeys net = true ->
     cliNetwork (before ++ [net]) = net /\
     cliAddresses (before ++ [net]) = before) /\
  (forall before last,
     JS.includes networkKeys last = false ->
     cliNetwork (before ++ [last]) = "mainnet"%string /\
     cliAddresses (before ++ [last]) = before ++ [last]).
Proof.
  split; intros before x Hx; unfold cliNetwork, cliAddresses;
    rewrite (last_argument ""%string before x), Hx.
  - split; [reflexivity | apply sliceA_drop_last].
  - split; reflexivity.
Qed.

(** X16: the network the command line hands to the check is always a
    key of the table, so the check it dispatches always passes the
    guard with an entry of the table. *)
Theorem cli_network_is_registered (args : list string) :
  JS.includes networkKeys (cliNetwork args) = true /\
  exists ch url,
    networkValue (cliNetwork args) = OwnEntry ch url /\
    forall a st,
      checkDelegation a (cliNetwork args) st
      = connectAndRead a (cliNetwork args) (OwnEntry ch url) st.
Proof.
  assert (Hk : JS.includes networkKeys (cliNetwork args) = true).
  { unfold cliNetwork.
    destruct (JS.includes networkKeys (nth _ args _)) eqn:E;
      [exact E | reflexivity]. }
  split; [exact Hk |].
  destruct (key_has_entry _ Hk) as (ch & url & Hown).
  exists ch, url. split.
  - unfold networkValue. now rewrite Hown.
  - intros a st. now apply checkDelegation_own.
Qed.


(** X18: with one valid address whose check throws, the script shows
    the message twice on [console.error], once as "Error:" by the
    display and once as "Fatal error:", and ends with status 1. *)
Theorem cli_single_failure_is_reported_twice (args : list string)
    (a msg : string) (st : Sys) :
  filter JS.testAddress (cliAddresses args) = [a] ->
  fst (checkDelegation a (cliNetwork args) st) = Throw msg ->
  exists st',
    cli args st = (Exit 1, st') /\
    console st'
    = console st ++ reports (cliAddresses args) ++
      [ Log (JS.newline ++ "=== EIP-7702 Delegation Check ===");
        Log ("Address: " ++ a);
        Log ("Network: " ++ cliNetwork args);
        Log ("================================" ++ JS.newline);
        Error (JS.newline ++ "Error: " ++ msg);
        Error (JS.newline ++ "Fatal error: " ++ msg) ].
Proof.
  intros Hone Hthrow.
  assert (Hne : args <> []).
  { intros ->. rewrite cliAddresses_nil in Hone. discriminate Hone. }
  rewrite (cli_some_arguments args st Hne). rewrite Hone.
  cbn [List.length Nat.eqb]. unfold bind at 1. cbn [ret].
  unfold tryCatch, dispatch. cbn [List.length Nat.eqb nth].
  unfold bind at 1.
  unfold displayDelegationInfo. do 4 log_step.
  unfold tryCatch. unfold bind at 1. cbn [world console].
  rewrite <- !app_assoc. rewrite checkDelegation_after_lines.
  rewrite Hthrow.
  unfold bind at 1. rewrite consoleError_run. cbn [throw world console].
  unfold bind at 1. rewrite consoleError_run. cbn [exit world console].
  eexists. split; [reflexivity |]. cbn [console].
  rewrite <- !app_assoc. reflexivity.
Qed.

(** X19: the script ends in one of two ways only: it runs to its end,
    and the status is 0, or it calls [process.exit(1)]; no exception
    leaves it. *)
Theorem main_ends_with_0_or_1 (argv : list string) (st : Sys) :
  fst (main argv st) = Ok tt \/ fst (main argv st) = Exit 1.
Proof.
  unfold main. generalize (JS.sliceFrom argv 2). intros args.
  destruct (cli args st) as [o s] eqn:E. cbn [fst].
  destruct args as [|a0 args'].
  - rewrite cli_no_argument in E. injection E as <- _. now right.
  - rewrite cli_some_arguments in E by discriminate.
    revert E. unfold bind at 1.
    destruct (filter JS.testAddress (cliAddresses (a0 :: args')))
      as [|v valid'].
    + cbn [List.length Nat.eqb]. unfold bind at 1.
      rewrite consoleError_run. cbn [exit].
      intros E. injection E as <- _. now right.
    + cbn [List.length Nat.eqb ret]. unfold tryCatch.
      match goal with
      | |- context [dispatch ?v ?n ?s] =>
          destruct (dispatch_outcome v n s)
            as (o' & st2 & lines & Hd & _ & [-> | (_ & msg & ->)]);
          rewrite Hd
      end.
      * intros E. injection E as <- _. now left.
      * unfold bind at 1. rewrite consoleError_run. cbn [exit].
        intros E. injection E as <- _. now right.
Qed.

(** X20: the first two entries of [process.argv] are not arguments:
    run with nothing after them, the script writes its usage, reads
    nothing and ends with status 1. *)
Theorem main_without_arguments (node script : string) (st : Sys) :
  exists lines,
    main [node; script] st
    = (Exit 1, mkSys _ (world st) (console st ++ lines)) /\
    List.length lines = 8 /\
    forall l, In l lines -> exists text, l = Log text.
Proof.
  unfold main. rewrite sliceFrom_2, cli_no_argument.
  eexists. split; [reflexivity |]. split; [reflexivity |].
  intros l Hl. cbn in Hl.
  repeat (destruct Hl as [<- | Hl]; [now eexists |]). contradiction.
Qed.

End Command_line_facts.

(** ** The further properties at concrete inputs *)

(** X1 on the name ["ropsten"]. *)
Lemma unlisted_network_is_refused_ropsten :
  @checkDelegation sampleHost addr1 "ropsten" (@start sampleHost 0)
  = (Throw "Unknown network: ropsten. Available networks: mainnet, sepolia, base, baseSepolia",
     @start sampleHost 0).
Proof.
  apply (@unlisted_network_is_refused sampleHost addr1 "ropsten"); reflexivity.
Defined.

(** X2 on the sample host, whose environment is empty. *)
Lemma registered_network_has_url_base :
  "https://mainnet.base.org" <> "" /\
  (("base" = "mainnet" /\ base = mainnet) \/
   ("base" = "sepolia" /\ base = sepolia) \/
   ("base" = "base" /\ base = base) \/
   ("base" = "baseSepolia" /\ base = baseSepolia)).
Proof.
  apply (@registered_network_has_url sampleHost "base" base
           "https://mainnet.base.org").
  reflexivity.
Defined.

(** X4 on a designator followed by four more characters. *)
Lemma trailing_code_is_ignored_beef :
  isDelegated
    (inspectCode addr1 "mainnet"
       (Some "0xef0100d8da6bf26964af9d7eed9e03e53415d37aa96045beef")) = true /\
  delegatedTo
    (inspectCode addr1 "mainnet"
       (Some "0xef0100d8da6bf26964af9d7eed9e03e53415d37aa96045beef"))
  = Some "0xd8da6bf26964af9d7eed9e03e53415d37aa96045" /\
  code
    (inspectCode addr1 "mainnet"
       (Some "0xef0100d8da6bf26964af9d7eed9e03e53415d37aa96045beef"))
  = Some "0xef0100d8da6bf26964af9d7eed9e03e53415d37aa96045beef".
Proof.
  apply (trailing_code_is_ignored addr1 "mainnet" "0x" "ef0100"
           "d8da6bf26964af9d7eed9e03e53415d37aa96045" "beef").
  - constructor. left. reflexivity.
  - constructor; left; reflexivity.
  - reflexivity.
Defined.

(** X5: ["0X"] is not the empty-code marker, and is not delegated
    either. *)
Example capital_0X_has_code :
  inspectCode addr1 "mainnet" (Some "0X")
  = mkResult false addr1 "mainnet" None (Some "0X")
      (Some "Address has code but no EIP-7702 delegation") None.
Proof. reflexivity. Qed.


(** X9 on the address whose read fails. *)
Lemma display_reports_failure_addr2 :
  @displayDelegationInfo sampleHost addr2 "base" (@start sampleHost 0)
  = (Throw "Failed to check delegation: HTTP request failed.",
     @mkSys sampleHost 1
       [ Log (JS.newline ++ "=== EIP-7702 Delegation Check ===");
         Log ("Address: " ++ addr2);
         Log "Network: base";
         Log ("================================" ++ JS.newline);
         Error (JS.newline
                ++ "Error: Failed to check delegation: HTTP request failed.") ]).
Proof.
  apply (@display_reports_failure sampleHost addr2 "base"
           "Failed to check delegation: HTTP request failed."
           (@start sampleHost 0)).
  reflexivity.
Defined.

(** X10 on a code of twelve characters, shown whole. *)
Lemma display_shows_start_of_code_short :
  exists shown,
    console (snd (@displayDelegationInfo sampleHost addr3 "mainnet"
                    (@start sampleHost 0)))
    = [ Log (JS.newline ++ "=== EIP-7702 Delegation Check ===");
        Log ("Address: " ++ addr3);
        Log "Network: mainnet";
        Log ("================================" ++ JS.newline);
        Log "Status: ✗ NOT DELEGATED";
        Log "Message: Address has code but no EIP-7702 delegation";
        Log (JS.newline ++ "Code found: " ++ shown);
        Log (JS.newline ++ "================================" ++ JS.newline) ]
    /\
    (String.length "0x6080604052" <= 66 -> shown = "0x6080604052") /\
    (66 < String.length "0x6080604052" ->
     exists p rest,
       "0x6080604052" = p ++ rest /\ String.length p = 66 /\
       shown = p ++ "...").
Proof.
  apply (@display_shows_start_of_code sampleHost addr3 "mainnet"
           "0x6080604052"
           (mkResult false addr3 "mainnet" None (Some "0x6080604052")
              (Some "Address has code but no EIP-7702 delegation") None)
           (@start sampleHost 0)); reflexivity.
Defined.

(** X10 on a code of seventy characters, cut after the 66th. *)
Example display_cuts_long_code :
  nth_error
    (console (snd (@displayDelegationInfo longCodeHost addr1 "mainnet"
                     (@start longCodeHost 0)))) 6
  = Some (Log (JS.newline ++
     "Code found: 0x60806040523480156100105760006000fd5b50600436106100365760003560e0...")).
Proof. reflexivity. Qed.

(** X11 on the name ["ropsten"] and two addresses. *)
Lemma batch_on_unlisted_network_ropsten :
  exists st',
    @checkMultipleDelegations sampleHost [addr1; addr2] "ropsten"
      (@start sampleHost 0)
    = (Ok [ mkResult false addr1 "ropsten" None None None
              (Some "Unknown network: ropsten. Available networks: mainnet, sepolia, base, baseSepolia");
            mkResult false addr2 "ropsten" None None None
              (Some "Unknown network: ropsten. Available networks: mainnet, sepolia, base, baseSepolia") ],
       st') /\
    @world sampleHost st' = 0.
Proof.
  apply (@batch_on_unlisted_network sampleHost [addr1; addr2] "ropsten"
           (@start sampleHost 0)); reflexivity.
Defined.

(** X13 on the entry of the address whose read fails. *)
Lemma batch_entries_have_message_or_error_addr2 :
  "sepolia" = "sepolia" /\ In addr2 [addr1; addr2; addr3] /\
  ((Some "Failed to check delegation: HTTP request failed." = None /\
    exists m, @None string = Some m) \/
   (exists msg,
      mkResult false addr2 "sepolia" None None None
        (Some "Failed to check delegation: HTTP request failed.")
      = mkResult false addr2 "sepolia" None None None (Some msg))).
Proof.
  apply (@batch_entries_have_message_or_error sampleHost
           [addr1; addr2; addr3] "sepolia" (@start sampleHost 0)
           (snd (@checkMultipleDelegations sampleHost [addr1; addr2; addr3]
                   "sepolia" (@start sampleHost 0)))
           [ mkResult true addr1 "sepolia"
               (Some "0xd8da6bf26964af9d7eed9e03e53415d37aa96045")
               (Some "0xef0100d8da6bf26964af9d7eed9e03e53415d37aa96045")
               (Some "Address is delegated to 0xd8da6bf26964af9d7eed9e03e53415d37aa96045")
               None;
             mkResult false addr2 "sepolia" None None None
               (Some "Failed to check delegation: HTTP request failed.");
             mkResult false addr3 "sepolia" None (Some "0x6080604052")
               (Some "Address has code but no EIP-7702 delegation") None ]
           (mkResult false addr2 "sepolia" None None None
              (Some "Failed to check delegation: HTTP request failed."))).
  - reflexivity.
  - right. left. reflexivity.
Defined.

(** X15 on three command lines. *)
Example cli_arguments :
  @cliNetwork sampleHost [addr1; addr2; "base"] = "base" /\
  @cliAddresses sampleHost [addr1; addr2; "base"] = [addr1; addr2] /\
  @cliNetwork sampleHost [addr1; "Base"] = "mainnet" /\
  @cliAddresses sampleHost [addr1; "Base"] = [addr1; "Base"] /\
  @cliNetwork sampleHost ["sepolia"; addr1] = "mainnet" /\
  @cliAddresses sampleHost ["sepolia"; addr1] = ["sepolia"; addr1].
Proof. repeat split. Qed.


(** X18 on the address whose read fails. *)
Lemma cli_single_failure_is_reported_twice_addr2 :
  exists st',
    @cli sampleHost [addr2; "0x12"; "base"] (@start sampleHost 0)
    = (Exit 1, st') /\
    @console sampleHost st'
    = ([] ++ reports (@cliAddresses sampleHost [addr2; "0x12"; "base"]) ++
       [ Log (JS.newline ++ "=== EIP-7702 Delegation Check ===");
         Log ("Address: " ++ addr2)%string;
         Log ("Network: " ++ @cliNetwork sampleHost [addr2; "0x12"; "base"])%string;
         Log ("================================" ++ JS.newline);
         Error (JS.newline
                ++ "Error: Failed to check delegation: HTTP request failed.");
         Error (JS.newline
                ++ "Fatal error: Failed to check delegation: HTTP request failed.") ])%list.
Proof.
  apply (@cli_single_failure_is_reported_twice sampleHost
           [addr2; "0x12"; "base"] addr2
           "Failed to check delegation: HTTP request failed."
           (@start sampleHost 0)); reflexivity.
Defined.

(** ** The signing scripts *)

Section Signing_scripts.

Import Wallet.

Context `{WalletHost}.

Local Open Scope list_scope.

(** What unfolds a script down to the calls into the host. *)
Local Ltac unfold_script :=
  unfold revokeScript, delegateScript, runScript, revokeDelegation,
    delegateToContract, wtryCatch, wbind, wcall, wlog, werror, wemit, sign,
    send, wthrow, wret, wexit.

(** X21: without a [PRIVATE_KEY] in the environment, unset or empty,
    the revocation script makes no request and changes nothing: it
    writes that it failed, with the error that asks for the key, and
    ends with status 1. *)
Theorem revoke_needs_private_key (st : WSys) :
  JS.truthy (walletEnv "PRIVATE_KEY") = false ->
  revokeScript st
  = (Exited 1,
     mkWSys _ (wworld st)
       (wconsole st ++
        [Error (JS.newline ++ "❌ Script failed: "
                ++ thrownText
                     (newError "Please provide PRIVATE_KEY in .env file"))])
       (requests st)).
Proof.
  intros Hkey. unfold_script. rewrite Hkey. reflexivity.
Qed.

(** X22: the delegation script asks for [PRIVATE_KEY] first and for
    [DELEGATION_CONTRACT] second; when either is unset or empty it
    makes no request, writes that it failed with the error that asks
    for the missing one, and ends with status 1. *)
Theorem delegate_needs_key_and_contract (st : WSys) :
  (JS.truthy (walletEnv "PRIVATE_KEY") = false ->
   delegateScript st
   = (Exited 1,
      mkWSys _ (wworld st)
        (wconsole st ++
         [Error (JS.newline ++ "❌ Script failed: "
                 ++ thrownText
                      (newError "Please provide PRIVATE_KEY in .env file"))])
        (requests st))) /\
  (JS.truthy (walletEnv "PRIVATE_KEY") = true ->
   JS.truthy (walletEnv "DELEGATION_CONTRACT") = false ->
   delegateScript st
   = (Exited 1,
      mkWSys _ (wworld st)
        (wconsole st ++
         [Error (JS.newline ++ "❌ Script failed: "
                 ++ thrownText
                      (newError
                         "Please provide DELEGATION_CONTRACT address in .env file"))])
        (requests st))).
Proof.
  split.
  - intros Hkey. unfold_script. rewrite Hkey. reflexivity.
  - intros Hkey Hcontract. unfold_script. rewrite Hkey, Hcontract.
    reflexivity.
Qed.

(** X23: the revocation script ends with status 0 or 1 and makes at
    most two requests: first the signature of an authorization for the
    zero address and for no other, then, only if that was signed, one
    transaction that carries exactly that authorization, goes to the
    account itself and has no value and no data.  It ends with 0 only
    when both were made. *)
Theorem revoke_requests_and_status (st : WSys) :
  exists reqs,
    requests (snd (revokeScript st)) = requests st ++ reqs /\
    (fst (revokeScript st) = Exited 0 \/ fst (revokeScript st) = Exited 1) /\
    (reqs = [] \/
     reqs = [SignAuthorization ZERO_ADDRESS] \/
     exists account client auth w,
       privateKeyToAccount ("0x" ++ JS.interp (walletEnv "PRIVATE_KEY"))
       = inr account /\
       signAuthorization client ZERO_ADDRESS (wworld st) = (inr auth, w) /\
       reqs = [ SignAuthorization ZERO_ADDRESS;
                SendTransaction [auth] (accountAddress account) 0 "0x" ]) /\
    (fst (revokeScript st) = Exited 0 -> List.length reqs = 2).
Proof.
  unfold_script.
  destruct (JS.truthy (walletEnv "PRIVATE_KEY")); cbn.
  2: { exists []. rewrite app_nil_r. intuition discriminate. }
  destruct (privateKeyToAccount _) as [e|account] eqn:Ha; cbn.
  { exists []. rewrite app_nil_r. intuition discriminate. }
  destruct (createWalletClient _ _ _) as [e|client]; cbn.
  { exists []. rewrite app_nil_r. intuition discriminate. }
  destruct (signAuthorization client ZERO_ADDRESS (wworld st))
    as [[e|auth] w] eqn:Hs; cbn.
  { exists [SignAuthorization ZERO_ADDRESS]. intuition discriminate. }
  destruct (sendTransaction client [auth] (accountAddress account) 0 "0x" w)
    as [[e|hash] w']; cbn.
  - eexists. rewrite <- app_assoc. split; [reflexivity |].
    split; [now right |]. split; [| discriminate].
    right. right. exists account, client, auth, w. now repeat split.
  - eexists. rewrite <- app_assoc. split; [reflexivity |].
    split; [now left |]. split; [| reflexivity].
    right. right. exists account, client, auth, w. now repeat split.
Qed.

(** X24: the revocation script ends with status 0 exactly when the key
    is there, the account and the client are made, the authorization
    for the zero address is signed and the transaction that carries it
    is accepted. *)
Theorem revoke_succeeds_iff (st : WSys) :
  fst (revokeScript st) = Exited 0 <->
  JS.truthy (walletEnv "PRIVATE_KEY") = true /\
  exists account client auth hash w1 w2,
    privateKeyToAccount ("0x" ++ JS.interp (walletEnv "PRIVATE_KEY"))
    = inr account /\
    createWalletClient account mainnet
      (JS.orElse (walletEnv "RPC_URL") "https://eth.llamarpc.com")
    = inr client /\
    signAuthorization client ZERO_ADDRESS (wworld st) = (inr auth, w1) /\
    sendTransaction client [auth] (accountAddress account) 0 "0x" w1
    = (inr hash, w2).
Proof.
  unfold_script.
  remember ("0x" ++ JS.interp (walletEnv "PRIVATE_KEY"))%string as key.
  remember (JS.orElse (walletEnv "RPC_URL") "https://eth.llamarpc.com") as url.
  destruct (JS.truthy (walletEnv "PRIVATE_KEY")); cbn.
  2: { split; [discriminate | intros [E _]; discriminate E]. }
  destruct (privateKeyToAccount key) as [e|account] eqn:Ha; cbn.
  { split; [discriminate |].
    intros (_ & a & c & au & h & w1 & w2 & E & _). discriminate E. }
  destruct (createWalletClient account mainnet url) as [e|client] eqn:Hc; cbn.
  { split; [discriminate |].
    intros (_ & a & c & au & h & w1 & w2 & E1 & E2 & _).
    injection E1 as <-. rewrite Hc in E2. discriminate E2. }
  destruct (signAuthorization client ZERO_ADDRESS (wworld st))
    as [[e|auth] w] eqn:Hs; cbn.
  { split; [discriminate |].
    intros (_ & a & c & au & h & w1 & w2 & E1 & E2 & E3 & _).
    injection E1 as <-. rewrite Hc in E2. injection E2 as <-.
    rewrite Hs in E3. discriminate E3. }
  destruct (sendTransaction client [auth] (accountAddress account) 0 "0x" w)
    as [[e|hash] w'] eqn:Ht; cbn.
  - split; [discriminate |].
    intros (_ & a & c & au & h & w1 & w2 & E1 & E2 & E3 & E4).
    injection E1 as <-. rewrite Hc in E2. injection E2 as <-.
    rewrite Hs in E3. injection E3 as <- <-.
    rewrite Ht in E4. discriminate E4.
  - split; [| reflexivity]. intros _. split; [reflexivity |].
    now exists account, client, auth, hash, w, w'.
Qed.

(** X25: the delegation script does not look at the address it is
    given: run with the zero address as [DELEGATION_CONTRACT] it makes
    the requests of the revocation script, leaves the same world and
    ends with the same status. *)
Theorem delegate_to_zero_is_revoke (st : WSys) :
  walletEnv "DELEGATION_CONTRACT" = Some ZERO_ADDRESS ->
  fst (delegateScript st) = fst (revokeScript st) /\
  wworld (snd (delegateScript st)) = wworld (snd (revokeScript st)) /\
  requests (snd (delegateScript st)) = requests (snd (revokeScript st)).
Proof.
  intros Hzero. unfold_script. rewrite Hzero.
  destruct (JS.truthy (walletEnv "PRIVATE_KEY")); cbn; [| now repeat split].
  destruct (privateKeyToAccount _) as [e|account]; cbn; [now repeat split |].
  destruct (createWalletClient _ _ _) as [e|client]; cbn;
    [now repeat split |].
  destruct (signAuthorization client ZERO_ADDRESS (wworld st))
    as [[e|auth] w]; cbn; [now repeat split |].
  destruct (sendTransaction client [auth] (accountAddress account) 0 "0x" w)
    as [[e|hash] w']; cbn; now repeat split.
Qed.

(** X26: the delegation script signs for the string found in
    [DELEGATION_CONTRACT], as it is and for nothing else, and sends a
    transaction only after that signature, with exactly that
    authorization, to the account itself, without value or data. *)
Theorem delegate_requests_and_status (st : WSys) :
  exists reqs,
    requests (snd (delegateScript st)) = requests st ++ reqs /\
    (fst (delegateScript st) = Exited 0 \/
     fst (delegateScript st) = Exited 1) /\
    (reqs = [] \/
     reqs = [SignAuthorization
               (JS.interp (walletEnv "DELEGATION_CONTRACT"))] \/
     exists account client auth w,
       privateKeyToAccount ("0x" ++ JS.interp (walletEnv "PRIVATE_KEY"))
       = inr account /\
       signAuthorization client
         (JS.interp (walletEnv "DELEGATION_CONTRACT")) (wworld st)
       = (inr auth, w) /\
       reqs = [ SignAuthorization
                  (JS.interp (walletEnv "DELEGATION_CONTRACT"));
                SendTransaction [auth] (accountAddress account) 0 "0x" ]) /\
    (fst (delegateScript st) = Exited 0 -> List.length reqs = 2).
Proof.
  unfold_script.
  destruct (JS.truthy (walletEnv "PRIVATE_KEY")); cbn.
  2: { exists []. rewrite app_nil_r. intuition discriminate. }
  destruct (JS.truthy (walletEnv "DELEGATION_CONTRACT")); cbn.
  2: { exists []. rewrite app_nil_r. intuition discriminate. }
  destruct (privateKeyToAccount _) as [e|account] eqn:Ha; cbn.
  { exists []. rewrite app_nil_r. intuition discriminate. }
  destruct (createWalletClient _ _ _) as [e|client]; cbn.
  { exists []. rewrite app_nil_r. intuition discriminate. }
  destruct (signAuthorization client _ (wworld st))
    as [[e|auth] w] eqn:Hs; cbn.
  { eexists [_]. intuition discriminate. }
  destruct (sendTransaction client [auth] (accountAddress account) 0 "0x" w)
    as [[e|hash] w']; cbn.
  - eexists. rewrite <- app_assoc. split; [reflexivity |].
    split; [now right |]. split; [| discriminate].
    right. right. exists account, client, auth, w. now repeat split.
  - eexists. rewrite <- app_assoc. split; [reflexivity |].
    split; [now left |]. split; [| reflexivity].
    right. right. exists account, client, auth, w. now repeat split.
Qed.

End Signing_scripts.

(** X21 on a wallet without key. *)
Lemma revoke_needs_private_key_none :
  @Wallet.revokeScript Wallet.noKeyWallet (@Wallet.wstart Wallet.noKeyWallet 0)
  = (Wallet.Exited 1,
     @Wallet.mkWSys Wallet.noKeyWallet 0
       [Error (JS.newline ++
          "❌ Script failed: Error: Please provide PRIVATE_KEY in .env file")]
       []).
Proof.
  apply (@revoke_needs_private_key Wallet.noKeyWallet). reflexivity.
Defined.

(** X25 on a wallet whose [DELEGATION_CONTRACT] is the zero address. *)
Lemma delegate_to_zero_is_revoke_sample :
  fst (@Wallet.delegateScript Wallet.zeroWallet
         (@Wallet.wstart Wallet.zeroWallet 0))
  = fst (@Wallet.revokeScript Wallet.zeroWallet
           (@Wallet.wstart Wallet.zeroWallet 0)) /\
  @Wallet.wworld Wallet.zeroWallet
    (snd (@Wallet.delegateScript Wallet.zeroWallet
            (@Wallet.wstart Wallet.zeroWallet 0)))
  = @Wallet.wworld Wallet.zeroWallet
      (snd (@Wallet.revokeScript Wallet.zeroWallet
              (@Wallet.wstart Wallet.zeroWallet 0))) /\
  @Wallet.requests Wallet.zeroWallet
    (snd (@Wallet.delegateScript Wallet.zeroWallet
            (@Wallet.wstart Wallet.zeroWallet 0)))
  = @Wallet.requests Wallet.zeroWallet
      (snd (@Wallet.revokeScript Wallet.zeroWallet
              (@Wallet.wstart Wallet.zeroWallet 0))).
Proof.
  apply (@delegate_to_zero_is_revoke Wallet.zeroWallet). reflexivity.
Defined.

(** The revocation script on a wallet that signs and sends, and on one
    that refuses to sign. *)
Example revoke_sample_runs :
  fst (@Wallet.revokeScript Wallet.signingWallet
         (@Wallet.wstart Wallet.signingWallet 0)) = Wallet.Exited 0 /\
  @Wallet.requests Wallet.signingWallet
    (snd (@Wallet.revokeScript Wallet.signingWallet
            (@Wallet.wstart Wallet.signingWallet 0)))
  = [ @Wallet.SignAuthorization Wallet.signingWallet Wallet.ZERO_ADDRESS;
      @Wallet.SendTransaction Wallet.signingWallet [Wallet.ZERO_ADDRESS]
        "account of 0xab" 0 "0x" ] /\
  fst (@Wallet.revokeScript Wallet.refusingWallet
         (@Wallet.wstart Wallet.refusingWallet 0)) = Wallet.Exited 1 /\
  @Wallet.requests Wallet.refusingWallet
    (snd (@Wallet.revokeScript Wallet.refusingWallet
            (@Wallet.wstart Wallet.refusingWallet 0)))
  = [ @Wallet.SignAuthorization Wallet.refusingWallet Wallet.ZERO_ADDRESS ].
Proof. repeat split. Qed.
